(** * Project model, metadata synchronisation and layer compositor of
      [scripts/model_editor.py]

    A shallow embedding of the data-carrying part of [MainWindow]: the
    in-memory manifest, the dirty flag, the project directory on disk
    (manifest.json, layers/, metadata/) and the event handlers that read
    or mutate them.

    Conventions.
    - A handler is a computation in the monad [M]: it threads the
      application state [App] and may raise a Python exception; the state
      reached at the point of the [raise] is kept, as in Python.
    - Values that a handler reads from a widget (current list item, check
      box, spin boxes, dialog answers, combo box texts) are arguments of
      the handler.
    - Calls that only repaint widgets (populate_layer_list,
      update_ui_state, on_layer_selection_changed, window title) are not
      part of the state and are left out; message boxes and status bar
      messages are appended to [ui_log].  The redraw with which some
      handlers end ([self.update_preview()]) is modelled once, as
      [update_preview], and is not repeated inside those handlers: the
      [scene] a handler leaves is the one before that redraw.
    - Pixmap loading and scaling belong to Qt; a draw operation records
      the parameters handed to it.  The Python arithmetic on the way to
      Qt ([int(width * scale)] for the overlay) and the conversion of the
      arguments of [QSize] to C ints are part of the model, with the
      exceptions they raise.
    - JSON documents are kept in parsed form, with the key sets the
      program itself reads and writes; a file that does not parse is
      [BadJSON].  A Python [dict] is a [gmap].  Where the result of a
      handler depends on the order in which a dict yields its keys (the
      link map of [run_migration_script]), that order is an argument of
      the handler; elsewhere the keys are taken in the order of
      [map_to_list]. *)

From Stdlib Require Import ZArith Ascii String SpecFloat.
From stdpp Require Import gmap strings list fin_maps sorting.

Open Scope Z_scope.

(* ================================================================== *)
(** ** Python exceptions and results *)

Inductive exn :=
| KeyError | TypeError | ValueError | OverflowError
| JSONDecodeError | IOError | OtherError.

Inductive result (A : Type) :=
| Ok (a : A)
| Raise (e : exn).
Arguments Ok {A} a.
Arguments Raise {A} e.

(** The computation returned normally. *)
Definition is_Ok {A} (r : result A) : Prop := ∃ a, r = Ok a.

#[global] Instance exn_eq_dec : EqDecision exn.
Proof. solve_decision. Defined.

#[global] Instance result_ret : MRet result := λ A a, Ok a.
#[global] Instance result_bind : MBind result := λ A B f r,
  match r with
  | Ok a => f a
  | Raise e => Raise e
  end.

(* ================================================================== *)
(** ** Python numbers: [int] and [float] (IEEE 754 binary64) *)

Module PyNum.

Definition prec : Z := 53.
Definition emax : Z := 1024.

Inductive pynum :=
| PInt (n : Z)
| PFloat (f : spec_float).

(** [float(n)] for an [int]: correctly rounded, [OverflowError] when
    the integer is too large for a double. *)
Definition float_of_int (n : Z) : result spec_float :=
  match binary_normalize prec emax n 0 false with
  | S754_infinity _ => Raise OverflowError
  | f => Ok f
  end.

(** [int * number]. *)
Definition mul_int (w : Z) (s : pynum) : result pynum :=
  match s with
  | PInt n => Ok (PInt (w * n))
  | PFloat f =>
      fw ← float_of_int w;
      Ok (PFloat (SFmul prec emax fw f))
  end.

(** Magnitude of a finite float [m * 2^e], truncated to an integer. *)
Definition trunc_mag (m : positive) (e : Z) : Z := Z.shiftl (Z.pos m) e.

(** [int(v)]: truncation toward zero. *)
Definition int (v : pynum) : result Z :=
  match v with
  | PInt n => Ok n
  | PFloat (S754_zero _) => Ok 0
  | PFloat (S754_finite s m e) =>
      Ok (if s then - trunc_mag m e else trunc_mag m e)
  | PFloat (S754_infinity _) => Raise OverflowError
  | PFloat S754_nan => Raise ValueError
  end.



(** The literal [1.0]. *)
Definition one : pynum := PFloat (S754_finite false 4503599627370496 (-52)).

End PyNum.
Export PyNum (pynum, PInt, PFloat).

#[global] Instance spec_float_eq_dec : EqDecision spec_float.
Proof. solve_decision. Defined.
#[global] Instance pynum_eq_dec : EqDecision pynum.
Proof. solve_decision. Defined.

(* ================================================================== *)
(** ** Data model *)

(** A layer record of the manifest: a dict with the optional keys
    "type", "offset", "description", "metadata" and "bindings". *)
Record LayerRecord := mkLayer {
  type : option string;
  offset : option (Z * Z);
  description : option string;
  metadata : option string;
  bindings : option (list string);
}.

(** The empty dict [{}]. *)
Definition empty_record : LayerRecord := mkLayer None None None None None.

(** The "top_layer" object of a metadata file. *)
Record TopLayer := mkTop {
  top_x : option Z;
  top_y : option Z;
  top_scale : option pynum;
  top_opacity : option pynum;
  original_width : option Z;
  original_height : option Z;
  scaled_width : option Z;
  scaled_height : option Z;
}.

Definition empty_top : TopLayer := mkTop None None None None None None None None.

(** A metadata document: the "top_layer" entry when present, and the
    names of the other top-level keys (they decide its truth value). *)
Record MetaDoc := mkDoc {
  top_layer : option TopLayer;
  other_keys : list string;
}.

Inductive MetaFile :=
| BadJSON
| GoodJSON (d : MetaDoc).

(** A file under layers/: an image with its pixel size, or anything
    else. *)
Inductive LayerFile :=
| ImageFile (w h : Z)
| OtherFile.

(** Content of manifest.json: unparsable, or a dict whose "layers" entry
    may be absent. *)
Inductive ManifestFile :=
| BadManifest
| GoodManifest (layers : option (gmap string LayerRecord)).

(** A project directory.  When [read_only] holds every [open(..., "w")]
    and every copy into the directory raises [IOError]. *)
Record ProjectDir := mkDir {
  manifest_json : option ManifestFile;
  layers_is_dir : bool;
  layers_dir : gmap string LayerFile;
  metadata_dir : gmap string MetaFile;
  read_only : bool;
}.

Inductive ui_event :=
| Critical (title : string)
| Warning (title : string)
| Information (title : string) (lines : list string)
| StatusBar (msg : string).

(** One item of the preview scene. *)
Record DrawOp := mkOp {
  image : string;
  pos : Z * Z;
  scale : pynum;
  opacity : pynum;
  z : Z;
}.

(** [self] of [MainWindow], with the disk it works on.  [manifest] is the
    "layers" entry of [self.manifest]; [None] is a manifest dict without
    that key (the initial [{}]). *)
Record App := mkApp {
  project_path : option string;
  manifest : option (gmap string LayerRecord);
  is_dirty : bool;
  disk : gmap string ProjectDir;
  scene : list DrawOp;
  ui_log : list ui_event;
}.

#[global] Instance LayerRecord_eq_dec : EqDecision LayerRecord.
Proof. solve_decision. Defined.
#[global] Instance TopLayer_eq_dec : EqDecision TopLayer.
Proof. solve_decision. Defined.
#[global] Instance MetaDoc_eq_dec : EqDecision MetaDoc.
Proof. solve_decision. Defined.
#[global] Instance MetaFile_eq_dec : EqDecision MetaFile.
Proof. solve_decision. Defined.
#[global] Instance LayerFile_eq_dec : EqDecision LayerFile.
Proof. solve_decision. Defined.
#[global] Instance DrawOp_eq_dec : EqDecision DrawOp.
Proof. solve_decision. Defined.

(* ================================================================== *)
(** ** The handler monad: state and exceptions *)

Definition M (A : Type) : Type := App → result A * App.

#[global] Instance M_ret : MRet M := λ A a s, (Ok a, s).
#[global] Instance M_bind : MBind M := λ A B f m s,
  match m s with
  | (Ok a, s') => f a s'
  | (Raise e, s') => (Raise e, s')
  end.

Definition get : M App := λ s, (Ok s, s).
Definition modify (f : App → App) : M unit := λ s, (Ok tt, f s).
Definition raise {A} (e : exn) : M A := λ s, (Raise e, s).
Definition lift {A} (r : result A) : M A := λ s, (r, s).

(** [try: body except <classes>: handler]; [catches e] tells whether the
    [except] clause matches the exception. *)
Definition try_except {A} (body : M A) (catches : exn → bool)
    (handler : exn → M A) : M A := λ s,
  match body s with
  | (Raise e, s') => if catches e then handler e s' else (Raise e, s')
  | r => r
  end.

Definition skip : M unit := mret tt.

(** Field updates of [App]. *)
Definition set_project_path (p : option string) (s : App) : App :=
  mkApp p (manifest s) (is_dirty s) (disk s) (scene s) (ui_log s).
Definition set_manifest (m : option (gmap string LayerRecord)) (s : App) : App :=
  mkApp (project_path s) m (is_dirty s) (disk s) (scene s) (ui_log s).
Definition set_is_dirty (b : bool) (s : App) : App :=
  mkApp (project_path s) (manifest s) b (disk s) (scene s) (ui_log s).
Definition set_disk (d : gmap string ProjectDir) (s : App) : App :=
  mkApp (project_path s) (manifest s) (is_dirty s) d (scene s) (ui_log s).
Definition set_scene (sc : list DrawOp) (s : App) : App :=
  mkApp (project_path s) (manifest s) (is_dirty s) (disk s) sc (ui_log s).
Definition log (e : ui_event) : M unit := modify (λ s,
  mkApp (project_path s) (manifest s) (is_dirty s) (disk s) (scene s)
        (ui_log s ++ [e])).

(* ================================================================== *)
(** ** Small Python helpers *)

(** Truth value of a [str]. *)
Definition truthy (s : string) : bool := negb (String.eqb s "").

(** Truth value of a parsed metadata dict: false exactly for [{}]. *)
Definition doc_truthy (d : MetaDoc) : bool :=
  match top_layer d, other_keys d with
  | None, [] => false
  | _, _ => true
  end.

(** [sorted(names)] on strings. *)
Definition str_le (a b : string) : Prop := String.leb a b = true.
#[global] Instance str_le_dec a b : Decision (str_le a b).
Proof. unfold str_le. solve_decision. Defined.
Definition sorted (names : list string) : list string := merge_sort str_le names.


(** [Path(name).name]: the part after the last slash. *)
Fixpoint path_name_aux (s acc : string) : string :=
  match s with
  | EmptyString => acc
  | String c s' =>
      if Ascii.eqb c "/"%char then path_name_aux s' EmptyString
      else path_name_aux s' (acc +:+ String c EmptyString)
  end.
Definition path_name (s : string) : string := path_name_aux s EmptyString.

(** [name.rfind('.')], as an index from the left. *)
Fixpoint rfind_dot (s : string) (i : nat) (found : option nat) : option nat :=
  match s with
  | EmptyString => found
  | String c s' =>
      rfind_dot s' (S i) (if Ascii.eqb c "."%char then Some i else found)
  end.

(** [Path(name).stem]: the final component without its last suffix; a
    leading or a trailing dot is not a suffix separator. *)
Definition stem (s : string) : string :=
  let name := path_name s in
  match rfind_dot name 0%nat None with
  | Some i =>
      if ((0 <? i)%nat && (i <? String.length name - 1)%nat)%bool
      then String.substring 0 i name
      else name
  | None => name
  end.

(** [fnmatch(name, "*.json")]. *)
Definition is_json_name (name : string) : bool :=
  let n := String.length name in
  ((5 <=? n)%nat && String.eqb (String.substring (n - 5) 5 name) ".json")%bool.

(* ================================================================== *)
(** ** Access to the project directory *)

(** The directory [self.project_path] points to, when it exists. *)
Definition cur_dir (s : App) : option ProjectDir :=
  p ← project_path s; disk s !! p.

(** [self.project_path / ...]: [None / str] is a [TypeError]. *)
Definition project_root : M string :=
  s ← get;
  match project_path s with
  | Some p => mret p
  | None => raise TypeError
  end.

(** [self.manifest["layers"]]. *)
Definition manifest_layers : M (gmap string LayerRecord) :=
  s ← get;
  match manifest s with
  | Some layers => mret layers
  | None => raise KeyError
  end.

(** [(root / "layers" / name).exists()]. *)
Definition layer_exists (s : App) (root name : string) : bool :=
  match disk s !! root with
  | Some d => bool_decide (is_Some (layers_dir d !! name))
  | None => false
  end.

Definition with_manifest_json (c : option ManifestFile) (d : ProjectDir) :=
  mkDir c (layers_is_dir d) (layers_dir d) (metadata_dir d) (read_only d).
Definition with_layer_file (name : string) (f : LayerFile) (d : ProjectDir) :=
  mkDir (manifest_json d) (layers_is_dir d) (<[name := f]> (layers_dir d))
        (metadata_dir d) (read_only d).
Definition with_metadata_file (name : string) (f : MetaFile) (d : ProjectDir) :=
  mkDir (manifest_json d) (layers_is_dir d) (layers_dir d)
        (<[name := f]> (metadata_dir d)) (read_only d).

(** A write below [root]: [IOError] when the directory is missing or
    not writable, otherwise the directory is replaced by [f d]. *)
Definition write_dir (root : string) (f : ProjectDir → ProjectDir) : M unit :=
  s ← get;
  match disk s !! root with
  | Some d =>
      if read_only d then raise IOError
      else modify (set_disk (<[root := f d]> (disk s)))
  | None => raise IOError
  end.

(* ================================================================== *)
(** ** Manifest store and dirty flag *)

Definition save_manifest : M unit :=
  s ← get;
  match project_path s with
  | Some p => write_dir p (with_manifest_json (Some (GoodManifest (manifest s))))
  | None => skip
  end.

Definition mark_dirty : M unit :=
  s ← get;
  if is_dirty s then skip else modify (set_is_dirty true).

Definition save_project : M bool :=
  s ← get;
  match project_path s with
  | None => log (Warning "Error");; mret false
  | Some _ =>
      save_manifest;;
      modify (set_is_dirty false);;
      log (StatusBar "Project saved.");;
      mret true
  end.

Definition auto_save_project : M unit :=
  s ← get;
  if (bool_decide (is_Some (project_path s)) && is_dirty s)%bool
  then save_project;; log (StatusBar "Project auto-saved.")
  else skip.

(** [open(manifest_path); json.load; setdefault("layers", {})]. *)
Definition read_manifest (path : string) : M unit :=
  s ← get;
  match disk s !! path ≫= manifest_json with
  | Some (GoodManifest layers) => modify (set_manifest (Some (default ∅ layers)))
  | Some BadManifest => raise JSONDecodeError
  | None => raise IOError
  end.

Definition load_project (path : string) : M unit :=
  s ← get;
  let manifest_exists :=
    bool_decide (is_Some (disk s !! path ≫= manifest_json)) in
  let layers_ok :=
    match disk s !! path with Some d => layers_is_dir d | None => false end in
  if (negb manifest_exists || negb layers_ok)%bool then log (Critical "Error")
  else
    modify (set_project_path (Some path));;
    loaded ← try_except
      (read_manifest path;; mret true)
      (λ _, true)
      (λ _, log (Critical "Load Failed");;
            modify (set_project_path None);;
            mret false);
    if loaded : bool then
      modify (set_is_dirty false);;
      log (StatusBar "Project loaded.")
    else skip.

(* ================================================================== *)
(** ** Layer kind *)

(** The checked branch: ["type"] set, ["offset"] defaulted, ["metadata"]
    popped. *)
Definition set_base (data : LayerRecord) : LayerRecord :=
  mkLayer (Some "base_layer") (Some (default (0, 0) (offset data)))
          (description data) None (bindings data).

(** The unchecked branch: ["type"] and ["offset"] popped. *)
Definition set_overlay (data : LayerRecord) : LayerRecord :=
  mkLayer None None (description data) (metadata data) (bindings data).

Definition update_layer_type (current_item : option string) (checked : bool)
    : M unit :=
  match current_item with
  | None => skip
  | Some layer_name =>
      layers ← manifest_layers;
      match layers !! layer_name with
      | None => raise KeyError
      | Some data =>
          let data' := if checked then set_base data else set_overlay data in
          modify (set_manifest (Some (<[layer_name := data']> layers)));;
          mark_dirty
      end
  end.

(** [data.get("type") == "base_layer"]. *)
Definition is_base_layer (data : LayerRecord) : bool :=
  bool_decide (type data = Some "base_layer").

(* ================================================================== *)
(** ** Metadata store *)

Definition load_metadata_content_for_layer (layer_name : string)
    : M (option MetaFile) :=
  s ← get;
  if (negb (truthy layer_name) || negb (bool_decide (is_Some (project_path s))))%bool
  then mret None
  else
    layers ← manifest_layers;
    match layers !! layer_name ≫= metadata with
    | Some metadata_filename =>
        if truthy metadata_filename
        then mret (cur_dir s ≫= λ d, metadata_dir d !! metadata_filename)
        else mret None
    | None => mret None
    end.

Definition load_metadata_json_for_layer (layer_name : string)
    : M (option MetaDoc) :=
  content ← load_metadata_content_for_layer layer_name;
  mret (match content with
        | Some (GoodJSON d) => Some d
        | _ => None
        end).

(** Writes one file below metadata/. *)
Definition write_metadata (root metadata_filename : string) (d : MetaDoc)
    : M unit :=
  write_dir root (with_metadata_file metadata_filename (GoodJSON d)).

Definition with_spinboxes (x y : Z) (new_scale opacity : pynum)
    (t : TopLayer) : TopLayer :=
  mkTop (Some x) (Some y) (Some new_scale) (Some opacity)
        (original_width t) (original_height t)
        (scaled_width t) (scaled_height t).

Definition with_scaled (w h : Z) (t : TopLayer) : TopLayer :=
  mkTop (top_x t) (top_y t) (top_scale t) (top_opacity t)
        (original_width t) (original_height t) (Some w) (Some h).

Definition with_original (w h : Z) (t : TopLayer) : TopLayer :=
  mkTop (top_x t) (top_y t) (top_scale t) (top_opacity t)
        (Some w) (Some h) (scaled_width t) (scaled_height t).

Definition with_top_layer (t : TopLayer) (d : MetaDoc) : MetaDoc :=
  mkDoc (Some t) (other_keys d).

(** [int(original * scale)] for both dimensions, width first. *)
Definition scaled_dims (original_w original_h : Z) (s : pynum)
    : result (Z * Z) :=
  pw ← PyNum.mul_int original_w s;
  sw ← PyNum.int pw;
  ph ← PyNum.mul_int original_h s;
  sh ← PyNum.int ph;
  mret (sw, sh).

(** The spin boxes hand over two ints (x, y) and two floats (scale,
    opacity). *)
Definition update_metadata_from_spinboxes (current_item : option string)
    (x y : Z) (new_scale opacity : spec_float) : M unit :=
  match current_item with
  | None => skip
  | Some layer_name =>
      metadata_json ← load_metadata_json_for_layer layer_name;
      match metadata_json with
      | None => skip
      | Some doc =>
          if negb (doc_truthy doc) then skip
          else
            let info :=
              with_spinboxes x y (PFloat new_scale) (PFloat opacity)
                             (default empty_top (top_layer doc)) in
            info' ← match original_width info, original_height info with
                    | Some original_w, Some original_h =>
                        '(sw, sh) ← lift (scaled_dims original_w original_h
                                                      (PFloat new_scale));
                        mret (with_scaled sw sh info)
                    | _, _ => mret info
                    end;
            layers ← manifest_layers;
            match layers !! layer_name ≫= metadata with
            | None => skip
            | Some metadata_filename =>
                if negb (truthy metadata_filename) then skip
                else
                  root ← project_root;
                  try_except
                    (write_metadata root metadata_filename
                                    (with_top_layer info' doc);;
                     mark_dirty)
                    (λ e, bool_decide (e = IOError ∨ e = TypeError))
                    (λ _, log (Critical "Save Error"))
            end
      end
  end.

(* ================================================================== *)
(** ** Adding layers *)

(** The record written for a base layer. *)
Definition base_record : LayerRecord :=
  mkLayer (Some "base_layer") (Some (0, 0)) None None None.

(** Where a chosen file is: outside the project's layers/ folder, with
    its content, or in that folder, where it is its own destination. *)
Inductive LayerSource :=
| Outside (file : LayerFile)
| OwnLayer.

(** [shutil.copy(src, dest)] for [dest = root / "layers" / name]: an
    [OSError] ([SameFileError]) when source and destination are the same
    file, and when layers/ is missing or cannot be written. *)
Definition copy_layer (root name : string) (src : LayerSource) : M unit :=
  match src with
  | OwnLayer => raise IOError
  | Outside file =>
      s ← get;
      match disk s !! root with
      | Some d =>
          if layers_is_dir d
          then write_dir root (with_layer_file name file)
          else raise IOError
      | None => raise IOError
      end
  end.

(** One pass of the loop body of [_add_layer_files] per chosen file: a
    pair of [Path(path).name] and the source file.  [overwrite name] is
    the answer to the "File Exists" question. *)
Fixpoint add_layer_loop (paths : list (string * LayerSource))
    (is_base : bool) (overwrite : string → bool) : M unit :=
  match paths with
  | [] => skip
  | (name, src) :: rest =>
      root ← project_root;
      s ← get;
      if (layer_exists s root name && negb (overwrite name))%bool
      then add_layer_loop rest is_base overwrite
      else
        copy_layer root name src;;
        layers ← manifest_layers;
        (if is_base
         then modify (set_manifest (Some (<[name := base_record]> layers)))
         else match layers !! name with
              | Some _ => skip
              | None =>
                  modify (set_manifest (Some (<[name := empty_record]> layers)))
              end);;
        add_layer_loop rest is_base overwrite
  end.

Definition _add_layer_files (paths : list (string * LayerSource))
    (is_base : bool) (overwrite : string → bool) : M unit :=
  match paths with
  | [] => skip
  | _ => add_layer_loop paths is_base overwrite;; mark_dirty
  end.

(* ================================================================== *)
(** ** Creating default metadata *)

Definition default_metadata (original_w original_h : Z) : MetaDoc :=
  mkDoc (Some (mkTop (Some 0) (Some 0) (Some PyNum.one) (Some PyNum.one)
                     (Some original_w) (Some original_h)
                     (Some original_w) (Some original_h)))
        [].

Definition with_metadata (m : option string) (data : LayerRecord) :=
  mkLayer (type data) (offset data) (description data) m (bindings data).

(** [QPixmap(path).width(), .height()]: a file that is no image gives the
    null pixmap. *)
Definition pixmap_size (f : LayerFile) : Z * Z :=
  match f with
  | ImageFile w h => (w, h)
  | OtherFile => (0, 0)
  end.

Definition _create_and_assign_metadata (layer_name : string)
    : M (option string) :=
  root ← project_root;
  s ← get;
  let '(original_w, original_h) :=
    match cur_dir s ≫= λ d, layers_dir d !! layer_name with
    | Some f => pixmap_size f
    | None => (0, 0)
    end in
  let metadata_filename := stem layer_name +:+ ".json" in
  written ← try_except
    (write_metadata root metadata_filename
                    (default_metadata original_w original_h);;
     mret true)
    (λ e, bool_decide (e = IOError))
    (λ _, mret false);
  if written : bool then
    layers ← manifest_layers;
    match layers !! layer_name with
    | None => raise KeyError
    | Some data =>
        modify (set_manifest
          (Some (<[layer_name := with_metadata (Some metadata_filename) data]>
                   layers)));;
        mark_dirty;;
        mret (Some metadata_filename)
    end
  else mret None.

(* ================================================================== *)
(** ** Compositor *)

(** Adds an item to the scene (visible items, in the order they are
    set up). *)
Definition emit (op : DrawOp) : M unit :=
  modify (λ s, set_scene (scene s ++ [op]) s).

(** Placement read from a loaded metadata document, with the defaults
    [0, 0, 1.0, 1.0]. *)
Definition placement (metadata : option MetaDoc) : Z * Z * pynum * pynum :=
  match metadata ≫= top_layer with
  | Some meta =>
      (default 0 (top_x meta), default 0 (top_y meta),
       default PyNum.one (top_scale meta),
       default PyNum.one (top_opacity meta))
  | None => (0, 0, PyNum.one, PyNum.one)
  end.

(** The combo box entry that stands for "no layer". *)
Definition selected (name : string) : bool :=
  (truthy name && negb (String.eqb name "<None>"))%bool.

(** Draws one bound layer relative to the base offset at height [zv]. *)
Definition draw_with_metadata (name : string) (base_offset : Z * Z) (zv : Z)
    : M unit :=
  metadata ← load_metadata_json_for_layer name;
  let '(meta_x, meta_y, meta_scale, meta_opacity) := placement metadata in
  emit (mkOp name (base_offset.1 + meta_x, base_offset.2 + meta_y)
             meta_scale meta_opacity zv).

(** [QtCore.QSize(w, h)]: the binding converts each argument to a C
    [int] and raises [OverflowError] for a value outside its range. *)
Definition c_int (n : Z) : result Z :=
  if ((- 2 ^ 31 <=? n) && (n <? 2 ^ 31))%bool then Ok n
  else Raise OverflowError.

Definition QSize (w h : Z) : result (Z * Z) :=
  w' ← c_int w;
  h' ← c_int h;
  mret (w', h').

(** The size the overlay is scaled to,
    [QSize(int(pixmap.width() * meta_scale),
           int(pixmap.height() * meta_scale))]:
    [int] raises on an infinite or undefined product. *)
Definition scaled_size (original_pixmap : LayerFile) (meta_scale : pynum)
    : result (Z * Z) :=
  let '(w, h) := pixmap_size original_pixmap in
  '(sw, sh) ← scaled_dims w h meta_scale;
  QSize sw sh.

(** [QPixmap(str(root / "layers" / name))]; the null pixmap when the file
    is no image. *)
Definition layer_pixmap (s : App) (root name : string) : LayerFile :=
  default OtherFile (disk s !! root ≫= λ d, layers_dir d !! name).

(** Draws the overlay: as [draw_with_metadata], after the size of its
    scaled pixmap has been computed. *)
Definition draw_top_layer (root top_name : string) (base_offset : Z * Z)
    (zv : Z) : M unit :=
  s ← get;
  let original_pixmap := layer_pixmap s root top_name in
  metadata ← load_metadata_json_for_layer top_name;
  let '(meta_x, meta_y, meta_scale, meta_opacity) := placement metadata in
  lift (scaled_size original_pixmap meta_scale);;
  emit (mkOp top_name (base_offset.1 + meta_x, base_offset.2 + meta_y)
             meta_scale meta_opacity zv).

(** The loop of [_render_bound_layers_for]. *)
Fixpoint render_bound_loop (bound_layer_names : list string)
    (base_offset : Z * Z) (current_z : Z) : M Z :=
  match bound_layer_names with
  | [] => mret current_z
  | bound_name :: rest =>
      root ← project_root;
      s ← get;
      if layer_exists s root bound_name
      then
        draw_with_metadata bound_name base_offset current_z;;
        render_bound_loop rest base_offset (current_z + 1)
      else render_bound_loop rest base_offset current_z
  end.

Definition _render_bound_layers_for (source_layer_name : string)
    (base_offset : Z * Z) (start_z : Z) : M Z :=
  layers ← manifest_layers;
  let bound_layer_names :=
    default [] (layers !! source_layer_name ≫= bindings) in
  render_bound_loop bound_layer_names base_offset start_z.

(** [base_name] and [top_name] are the current texts of the two preview
    combo boxes. *)
Definition update_preview (base_name top_name : string) : M unit :=
  modify (set_scene []);;
  layers ← manifest_layers;
  let base_offset := default (0, 0) (layers !! base_name ≫= offset) in
  let z_index := 0 in
  (if selected base_name then
     root ← project_root;
     s ← get;
     if layer_exists s root base_name
     then emit (mkOp base_name (0, 0) PyNum.one PyNum.one z_index)
     else skip
   else skip);;
  let z_index := z_index + 1 in
  (if selected top_name then
     root ← project_root;
     s ← get;
     if layer_exists s root top_name
     then draw_top_layer root top_name base_offset z_index
     else skip
   else skip);;
  z_index ← (if selected top_name
             then _render_bound_layers_for top_name base_offset (z_index + 1)
             else mret z_index);
  z_index ← (if selected base_name
             then _render_bound_layers_for base_name base_offset (z_index + 1)
             else mret z_index);
  skip.

(* ================================================================== *)
(** ** Bindings *)







(* ================================================================== *)
(** ** Migration of legacy metadata *)

Inductive outcome :=
| Processed
| Skipped
| Errored (message : string).

Record Report := mkReport {
  processed_count : nat;
  skipped_count : nat;
  error_count : nat;
  error_messages : list string;
}.

Definition empty_report : Report := mkReport 0 0 0 [].

Definition tally (o : outcome) (r : Report) : Report :=
  match o with
  | Processed =>
      mkReport (S (processed_count r)) (skipped_count r) (error_count r)
               (error_messages r)
  | Skipped =>
      mkReport (processed_count r) (S (skipped_count r)) (error_count r)
               (error_messages r)
  | Errored msg =>
      mkReport (processed_count r) (skipped_count r) (S (error_count r))
               (error_messages r ++ [msg])
  end.

(** [layers.items()], for a dict whose keys come in the order
    [layer_order] (the order in which they were inserted). *)
Definition dict_items (layer_order : list string)
    (layers : gmap string LayerRecord) : list (string * LayerRecord) :=
  omap (λ layer_name,
          (λ layer_info, (layer_name, layer_info)) <$> layers !! layer_name)
       layer_order.

(** Metadata file name to the layer that refers to it, built in one pass
    over the items of the dict: a later layer overwrites an earlier
    one. *)
Definition metadata_to_layer_map (items : list (string * LayerRecord))
    : gmap string string :=
  foldl (λ acc '(layer_name, layer_info),
           match metadata layer_info with
           | Some metadata_filename =>
               if truthy metadata_filename
               then <[metadata_filename := layer_name]> acc
               else acc
           | None => acc
           end)
        ∅ items.

(** [with open(json_path) as f: data = json.load(f)]. *)
Definition read_metadata (root json_name : string) : M MetaDoc :=
  s ← get;
  match disk s !! root ≫= λ d, metadata_dir d !! json_name with
  | Some (GoodJSON data) => mret data
  | Some BadJSON => raise JSONDecodeError
  | None => raise IOError
  end.

(** [Image.open(image_path).size]; a file that is no image makes PIL
    raise. *)
Definition image_size (f : LayerFile) : M (Z * Z) :=
  match f with
  | ImageFile w h => mret (w, h)
  | OtherFile => raise OtherError
  end.

(** The body of the [try] block for one metadata file. *)
Definition migrate_body (links : gmap string string) (root json_name : string)
    : M outcome :=
  data ← read_metadata root json_name;
  match top_layer data with
  | None => mret Skipped
  | Some info =>
      if bool_decide (is_Some (original_width info)) then mret Skipped
      else
        match links !! json_name with
        | None => mret Skipped
        | Some layer_filename =>
            s ← get;
            match disk s !! root ≫= λ d, layers_dir d !! layer_filename with
            | None =>
                mret (Errored ("Layer '" +:+ layer_filename +:+ "' (for '"
                               +:+ json_name +:+ "') not found."))
            | Some img =>
                '(original_w, original_h) ← image_size img;
                let scale := default PyNum.one (top_scale info) in
                '(sw, sh) ← lift (scaled_dims original_w original_h scale);
                write_metadata root json_name
                  (with_top_layer
                     (with_scaled sw sh
                        (with_original original_w original_h info))
                     data);;
                mret Processed
            end
        end
  end.

(** One iteration: the [try] block with its two [except] clauses. *)
Definition migrate_file (links : gmap string string) (root json_name : string)
    : M outcome :=
  try_except
    (try_except (migrate_body links root json_name)
       (λ e, bool_decide (e = JSONDecodeError))
       (λ _, mret (Errored ("Invalid JSON in '" +:+ json_name +:+ "'."))))
    (λ _, true)
    (λ _, mret (Errored ("Error with '" +:+ json_name +:+ "'."))).

(** [cancel_at] is the iteration at which the progress dialog reports a
    cancellation, if any. *)
Fixpoint migration_loop (links : gmap string string) (root : string)
    (metadata_files : list string) (i : nat) (cancel_at : option nat)
    (r : Report) : M Report :=
  match metadata_files with
  | [] => mret r
  | json_name :: rest =>
      if bool_decide (cancel_at = Some i) then mret r
      else
        o ← migrate_file links root json_name;
        migration_loop links root rest (S i) cancel_at (tally o r)
  end.

(** [list(metadata_dir.glob("*.json"))]. *)
Definition glob_json (s : App) (root : string) : list string :=
  match disk s !! root with
  | Some d => filter (λ name, is_json_name name = true)
                     (map_to_list (metadata_dir d)).*1
  | None => []
  end.

Definition summary_lines (r : Report) : list string :=
  error_messages r.

(** [layer_order] is the order in which the dict of layer records yields
    its keys. *)
Definition run_migration_script (layer_order : list string)
    (cancel_at : option nat) : M (option Report) :=
  s ← get;
  match project_path s with
  | None => log (Warning "No Project");; mret None
  | Some root =>
      let links :=
        metadata_to_layer_map
          (dict_items layer_order (default ∅ (manifest s))) in
      match glob_json s root with
      | [] => log (Information "Migration Info" []);; mret None
      | metadata_files =>
          r ← migration_loop links root metadata_files 0 cancel_at
                             empty_report;
          log (Information "Migration Complete" (summary_lines r));;
          mret (Some r)
      end
  end.

(** Counters of a run; a run that stops before the loop counts nothing. *)
Definition report_of (r : option Report) : Report := default empty_report r.

(* ================================================================== *)
(** ** Manifest cleanup *)

(** Names whose file under layers/ does not exist. *)
Definition missing_layers (s : App) (root : string)
    (all_layers : list string) : list string :=
  filter (λ layer_name, layer_exists s root layer_name = false) all_layers.

(** [reply] is the answer to the confirmation question. *)
Definition cleanup_manifest (reply : bool) : M unit :=
  s ← get;
  match project_path s with
  | None => log (Warning "No Project")
  | Some root =>
      if negb reply then skip
      else
        let layers := default ∅ (manifest s) in
        let all_layers := (map_to_list layers).*1 in
        match missing_layers s root all_layers with
        | [] => log (Information "Cleanup Complete" [])
        | missing =>
            modify (set_manifest
              (Some (foldl (λ m layer_name, delete layer_name m)
                           layers missing)));;
            mark_dirty;;
            log (Information "Cleanup Summary" missing)
        end
  end.

(** Runs a handler from a state: the result and the state reached. *)
Definition run {A} (m : M A) (s : App) : result A * App := m s.
Definition exec {A} (m : M A) (s : App) : App := (m s).2.

(** The "top_layer" object stored in a metadata file of the project. *)
Definition stored_top (s : App) (root metadata_filename : string)
    : option TopLayer :=
  match disk s !! root ≫= λ d, metadata_dir d !! metadata_filename with
  | Some (GoodJSON doc) => top_layer doc
  | _ => None
  end.

(* ================================================================== *)
(** ** One migration iteration as a function of the directory *)

(** The record written back for a legacy file. *)
Definition migrated (original_w original_h sw sh : Z) (info : TopLayer)
    (data : MetaDoc) : MetaDoc :=
  with_top_layer
    (with_scaled sw sh (with_original original_w original_h info)) data.

(** What [migrate_file] comes to on a directory [d]: its outcome and the
    directory it leaves.  [migrate_file_step] below relates the two. *)
Definition migration_step (links : gmap string string) (d : ProjectDir)
    (json_name : string) : outcome * ProjectDir :=
  let failed := Errored ("Error with '" +:+ json_name +:+ "'.") in
  match metadata_dir d !! json_name with
  | None => (failed, d)
  | Some BadJSON => (Errored ("Invalid JSON in '" +:+ json_name +:+ "'."), d)
  | Some (GoodJSON data) =>
      match top_layer data with
      | None => (Skipped, d)
      | Some info =>
          if bool_decide (is_Some (original_width info)) then (Skipped, d)
          else
            match links !! json_name with
            | None => (Skipped, d)
            | Some layer_filename =>
                match layers_dir d !! layer_filename with
                | None =>
                    (Errored ("Layer '" +:+ layer_filename +:+ "' (for '"
                              +:+ json_name +:+ "') not found."), d)
                | Some OtherFile => (failed, d)
                | Some (ImageFile original_w original_h) =>
                    match scaled_dims original_w original_h
                                      (default PyNum.one (top_scale info)) with
                    | Raise _ => (failed, d)
                    | Ok (sw, sh) =>
                        if read_only d then (failed, d)
                        else
                          (Processed,
                           with_metadata_file json_name
                             (GoodJSON (migrated original_w original_h sw sh
                                                 info data)) d)
                    end
                end
            end
      end
  end.

(** The whole loop, not cancelled, on a directory. *)
Fixpoint migration_steps (links : gmap string string) (d : ProjectDir)
    (metadata_files : list string) (r : Report) : Report * ProjectDir :=
  match metadata_files with
  | [] => (r, d)
  | json_name :: rest =>
      migration_steps links (migration_step links d json_name).2 rest
                      (tally (migration_step links d json_name).1 r)
  end.

(** Replaces the directory at [root]. *)
Definition put_dir (root : string) (d : ProjectDir) (s : App) : App :=
  set_disk (<[root := d]> (disk s)) s.

(** The outcomes of a list of files on one directory, counted. *)
Definition is_processed (o : outcome) : bool :=
  match o with Processed => true | _ => false end.
Definition is_skipped (o : outcome) : bool :=
  match o with Skipped => true | _ => false end.
Definition is_errored (o : outcome) : bool :=
  match o with Errored _ => true | _ => false end.

(** The outcome of an iteration on [d], and the outcome the same file
    has in a later run. *)
Definition outcome_of (links : gmap string string) (d : ProjectDir)
    (json_name : string) : outcome :=
  (migration_step links d json_name).1.

Definition settled (o : outcome) : outcome :=
  match o with
  | Processed => Skipped
  | _ => o
  end.

(** How many of the files get an outcome of the kind [p]. *)
Definition count_outcomes (p : outcome → bool) (o : string → outcome)
    (metadata_files : list string) : nat :=
  length (filter (λ json_name, p (o json_name) = true) metadata_files).

(* ================================================================== *)
(** ** The adding of a layer as the manifest store describes it *)



(* ================================================================== *)
(** ** A small project for the examples *)

Module Demo.

(** The floats [0.25] and [0.5]. *)
Definition quarter : spec_float := S754_finite false 4503599627370496 (-54).
Definition half : spec_float := S754_finite false 4503599627370496 (-53).

Definition base_png : LayerRecord :=
  mkLayer (Some "base_layer") (Some (10, 20)) None None
          (Some ["x.png"; "y.png"]).
Definition face_png : LayerRecord :=
  mkLayer None None (Some "face") (Some "face.json")
          (Some ["p.png"; "q.png"]).
Definition hat_png : LayerRecord :=
  mkLayer None None None (Some "hat.json") None.

Definition layers : gmap string LayerRecord :=
  list_to_map
    [("base.png", base_png); ("face.png", face_png); ("hat.png", hat_png);
     ("p.png", empty_record); ("q.png", empty_record);
     ("x.png", empty_record); ("y.png", empty_record);
     ("gone.png", empty_record)].

(** The keys in the order of the manifest. *)
Definition layer_order : list string :=
  ["base.png"; "face.png"; "hat.png"; "p.png"; "q.png"; "x.png"; "y.png";
   "gone.png"].

(** face.json has the dimension fields, hat.json is a legacy file. *)
Definition face_top : TopLayer :=
  mkTop (Some 1) (Some 2) (Some (PFloat half)) (Some PyNum.one)
        (Some 3) (Some 7) (Some 1) (Some 3).
Definition hat_top : TopLayer :=
  mkTop (Some 0) (Some 0) (Some (PFloat quarter)) None None None None None.
Definition face_json : MetaDoc := mkDoc (Some face_top) [].
Definition hat_json : MetaDoc := mkDoc (Some hat_top) [].

(** Every layer but gone.png has its image. *)
Definition dir : ProjectDir :=
  mkDir (Some (GoodManifest (Some layers))) true
    (list_to_map
       [("base.png", ImageFile 640 480); ("face.png", ImageFile 3 7);
        ("hat.png", ImageFile 3 7);
        ("p.png", ImageFile 8 8); ("q.png", ImageFile 8 8);
        ("x.png", ImageFile 8 8); ("y.png", ImageFile 8 8)])
    (list_to_map
       [("face.json", GoodJSON face_json); ("hat.json", GoodJSON hat_json)])
    false.

(** A second directory whose manifest.json does not parse. *)
Definition broken_dir : ProjectDir :=
  mkDir (Some BadManifest) true ∅ ∅ false.

Definition files : gmap string ProjectDir :=
  list_to_map [("/proj", dir); ("/broken", broken_dir)].

Definition app : App := mkApp (Some "/proj") (Some layers) false files [] [].
Definition dirty_app : App := set_is_dirty true app.

End Demo.

(* ================================================================== *)
(** ** Opening a project *)




(* ================================================================== *)
(** ** Preview choices *)

(** The two item lists of [populate_combo_boxes]. *)
Definition base_items (s : App) : list string :=
  "<None>" ::
  sorted (filter (λ '(n, d), is_base_layer d = true)
                 (map_to_list (default ∅ (manifest s)))).*1.

Definition top_items (s : App) : list string :=
  "<None>" ::
  sorted (filter (λ '(n, d), is_base_layer d = false)
                 (map_to_list (default ∅ (manifest s)))).*1.

(* ================================================================== *)
(** ** Editing a layer record *)

Definition with_offset (o : option (Z * Z)) (data : LayerRecord) :=
  mkLayer (type data) o (description data) (metadata data) (bindings data).

Definition with_description (t : option string) (data : LayerRecord) :=
  mkLayer (type data) (offset data) t (metadata data) (bindings data).

(** [x] and [y] are the values of the two offset spin boxes. *)
Definition update_base_offset (current_item : option string) (x y : Z)
    : M unit :=
  match current_item with
  | None => skip
  | Some layer_name =>
      layers ← manifest_layers;
      match layers !! layer_name with
      | None => raise KeyError
      | Some data =>
          if is_base_layer data then
            modify (set_manifest
              (Some (<[layer_name := with_offset (Some (x, y)) data]> layers)));;
            mark_dirty
          else skip
      end
  end.

(** [text] is the content of the description field. *)
Definition update_layer_description (current_item : option string)
    (text : string) : M unit :=
  match current_item with
  | None => skip
  | Some layer_name =>
      layers ← manifest_layers;
      match layers !! layer_name with
      | None => raise KeyError
      | Some data =>
          modify (set_manifest
            (Some (<[layer_name := with_description (Some text) data]> layers)));;
          mark_dirty
      end
  end.

Definition without_layer_file (name : string) (d : ProjectDir) :=
  mkDir (manifest_json d) (layers_is_dir d) (delete name (layers_dir d))
        (metadata_dir d) (read_only d).

(** [(root / "layers" / name).unlink(missing_ok=True)]. *)
Definition unlink_layer (root name : string) : M unit :=
  s ← get;
  if layer_exists s root name
  then write_dir root (without_layer_file name)
  else skip.

(** [reply] is the answer to the "Confirm Deletion" question. *)
Definition remove_layer (current_item : option string) (reply : bool)
    : M unit :=
  match current_item with
  | None => skip
  | Some layer_name =>
      if reply then
        layers ← manifest_layers;
        modify (set_manifest (Some (delete layer_name layers)));;
        root ← project_root;
        unlink_layer root layer_name;;
        mark_dirty
      else skip
  end.

Definition clear_metadata (current_item : option string) : M unit :=
  match current_item with
  | None => skip
  | Some layer_name =>
      layers ← manifest_layers;
      match layers !! layer_name with
      | None => raise KeyError
      | Some data =>
          match metadata data with
          | Some _ =>
              modify (set_manifest
                (Some (<[layer_name := with_metadata None data]> layers)));;
              mark_dirty
          | None => skip
          end
      end
  end.


(* ================================================================== *)
(** ** The preview scene in closed form *)

(** What [load_metadata_json_for_layer] returns in a state whose manifest
    has the layer records [layers]. *)
Definition metadata_of (s : App) (layers : gmap string LayerRecord)
    (layer_name : string) : option MetaDoc :=
  if (negb (truthy layer_name)
      || negb (bool_decide (is_Some (project_path s))))%bool
  then None
  else
    match layers !! layer_name ≫= metadata with
    | Some metadata_filename =>
        if truthy metadata_filename then
          match cur_dir s ≫= λ d, metadata_dir d !! metadata_filename with
          | Some (GoodJSON d) => Some d
          | _ => None
          end
        else None
    | None => None
    end.

(** The item [draw_with_metadata] adds. *)
Definition draw_op (s : App) (layers : gmap string LayerRecord)
    (name : string) (base_offset : Z * Z) (zv : Z) : DrawOp :=
  let '(meta_x, meta_y, meta_scale, meta_opacity) :=
    placement (metadata_of s layers name) in
  mkOp name (base_offset.1 + meta_x, base_offset.2 + meta_y)
       meta_scale meta_opacity zv.

(** The items [render_bound_loop] adds. *)
Fixpoint bound_ops (s : App) (root : string)
    (layers : gmap string LayerRecord) (names : list string)
    (base_offset : Z * Z) (zv : Z) : list DrawOp :=
  match names with
  | [] => []
  | n :: rest =>
      if layer_exists s root n
      then draw_op s layers n base_offset zv
           :: bound_ops s root layers rest base_offset (zv + 1)
      else bound_ops s root layers rest base_offset zv
  end.

(** The bindings list of a layer, [[]] when it has none. *)
Definition bindings_of (layers : gmap string LayerRecord) (name : string)
    : list string :=
  default [] (layers !! name ≫= bindings).

(** The scene [update_preview] sets up: base item, top item, items bound
    to the top layer, items bound to the base layer. *)
Definition base_ops (s : App) (root base_name : string) : list DrawOp :=
  if (selected base_name && layer_exists s root base_name)%bool
  then [mkOp base_name (0, 0) PyNum.one PyNum.one 0]
  else [].

Definition top_ops (s : App) (root : string)
    (layers : gmap string LayerRecord) (top_name : string)
    (base_offset : Z * Z) : list DrawOp :=
  if (selected top_name && layer_exists s root top_name)%bool
  then [draw_op s layers top_name base_offset 1]
  else [].

Definition top_bound_ops (s : App) (root : string)
    (layers : gmap string LayerRecord) (top_name : string)
    (base_offset : Z * Z) : list DrawOp :=
  if selected top_name
  then bound_ops s root layers (bindings_of layers top_name) base_offset 2
  else [].

Definition base_bound_ops (s : App) (root : string)
    (layers : gmap string LayerRecord) (base_name top_name : string)
    (base_offset : Z * Z) : list DrawOp :=
  let z_index :=
    if selected top_name
    then 2 + Z.of_nat (length (top_bound_ops s root layers top_name base_offset))
    else 1 in
  if selected base_name
  then bound_ops s root layers (bindings_of layers base_name) base_offset
                 (z_index + 1)
  else [].

Definition preview_ops (s : App) (root : string)
    (layers : gmap string LayerRecord) (base_name top_name : string)
    : list DrawOp :=
  let base_offset := default (0, 0) (layers !! base_name ≫= offset) in
  base_ops s root base_name
  ++ top_ops s root layers top_name base_offset
  ++ top_bound_ops s root layers top_name base_offset
  ++ base_bound_ops s root layers base_name top_name base_offset.

(** The size [update_preview] computes for the overlay's scaled pixmap. *)
Definition top_size (s : App) (root : string)
    (layers : gmap string LayerRecord) (top_name : string) : result (Z * Z) :=
  scaled_size (layer_pixmap s root top_name)
              (placement (metadata_of s layers top_name)).1.2.

(** Whether that computation, made only when the overlay is drawn, goes
    through. *)
Definition overlay_check (s : App) (root : string)
    (layers : gmap string LayerRecord) (top_name : string) : result unit :=
  if (selected top_name && layer_exists s root top_name)%bool
  then top_size s root layers top_name ≫= λ _, Ok tt
  else Ok tt.

(** The layers that have a picture in the preview, in drawing order. *)
Definition on_disk (s : App) (root : string) (names : list string)
    : list string :=
  filter (λ n, layer_exists s root n = true) names.

Definition visible_layers (s : App) (root : string)
    (layers : gmap string LayerRecord) (base_name top_name : string)
    : list string :=
  (if selected base_name then on_disk s root [base_name] else [])
  ++ (if selected top_name then on_disk s root [top_name] else [])
  ++ (if selected top_name
      then on_disk s root (bindings_of layers top_name) else [])
  ++ (if selected base_name
      then on_disk s root (bindings_of layers base_name) else []).

(* ================================================================== *)
(** ** A second project for the examples *)

Module Demo2.

(** One base layer with a binding to a layer that has no record. *)
Definition layers : gmap string LayerRecord :=
  list_to_map
    [("body.png", mkLayer (Some "base_layer") (Some (5, 7)) None None
                          (Some ["ghost.png"; "arm.png"]));
     ("arm.png", mkLayer None None None (Some "arm.json") None);
     ("arm.jpg", empty_record)].

Definition arm_json : MetaDoc :=
  mkDoc (Some (mkTop (Some 3) (Some 4) None None None None None None)) [].

Definition dir : ProjectDir :=
  mkDir (Some (GoodManifest (Some layers))) true
    (list_to_map [("body.png", ImageFile 64 64); ("arm.png", ImageFile 8 8)])
    (list_to_map [("arm.json", GoodJSON arm_json); ("notes.txt", BadJSON)])
    false.

(** The same directory on a medium that cannot be written. *)
Definition locked_dir : ProjectDir :=
  mkDir (manifest_json dir) true (layers_dir dir) (metadata_dir dir) true.

Definition files : gmap string ProjectDir :=
  list_to_map [("/proj", Demo.dir); ("/other", dir); ("/locked", locked_dir)].

Definition app : App := mkApp (Some "/other") (Some layers) false files [] [].
Definition locked_app : App :=
  mkApp (Some "/locked") (Some layers) false files [] [].

End Demo2.

(* ================================================================== *)
(** ** Creating metadata from the layer list *)

(** [(root / "metadata" / name).exists()]. *)
Definition metadata_exists (s : App) (root name : string) : bool :=
  match disk s !! root with
  | Some d => bool_decide (is_Some (metadata_dir d !! name))
  | None => false
  end.

(** [overwrite] is the answer to the "File Exists" question. *)
Definition create_metadata_file (current_item : option string)
    (overwrite : bool) : M unit :=
  match current_item with
  | None => skip
  | Some layer_name =>
      let metadata_filename := stem layer_name +:+ ".json" in
      root ← project_root;
      s ← get;
      if (metadata_exists s root metadata_filename && negb overwrite)%bool
      then skip
      else
        new_filename ← _create_and_assign_metadata layer_name;
        match new_filename with
        | Some fn =>
            if truthy fn
            then log (StatusBar ("Created metadata file '" +:+ fn +:+ "'"))
            else log (Critical "Error")
        | None => log (Critical "Error")
        end
  end.

(** The size [_create_and_assign_metadata] reads for a layer: the one of
    its pixmap, [0, 0] without an image file. *)
Definition image_dims (d : ProjectDir) (layer_name : string) : Z * Z :=
  match layers_dir d !! layer_name with
  | Some f => pixmap_size f
  | None => (0, 0)
  end.

(** The "top_layer" dict of [update_metadata_from_spinboxes] after its
    in-memory edits, before it is written. *)
Definition edited_top_layer (doc : MetaDoc) (x y : Z)
    (new_scale opacity : spec_float) : result TopLayer :=
  let info :=
    with_spinboxes x y (PFloat new_scale) (PFloat opacity)
                   (default empty_top (top_layer doc)) in
  match original_width info, original_height info with
  | Some original_w, Some original_h =>
      '(sw, sh) ← scaled_dims original_w original_h (PFloat new_scale);
      mret (with_scaled sw sh info)
  | _, _ => mret info
  end.

(** The placement the compositor reads from a metadata file of a
    directory: the defaults when the file is missing or does not parse. *)
Definition file_placement (d : ProjectDir) (metadata_filename : string)
    : Z * Z * pynum * pynum :=
  placement (match metadata_dir d !! metadata_filename with
             | Some (GoodJSON doc) => Some doc
             | _ => None
             end).

Module Demo3.

(** A metadata file whose stored original width, [2 ** 1024], is too
    large for a float. *)
Definition big_top : TopLayer :=
  mkTop (Some 0) (Some 0) (Some PyNum.one) (Some PyNum.one)
        (Some (2 ^ 1024)) (Some 1) (Some 0) (Some 0).
Definition big_json : MetaDoc := mkDoc (Some big_top) [].
Definition big_png : LayerRecord :=
  mkLayer None None None (Some "big.json") None.

Definition layers : gmap string LayerRecord :=
  list_to_map [("big.png", big_png)].

Definition dir : ProjectDir :=
  mkDir (Some (GoodManifest (Some layers))) true
    (list_to_map [("big.png", ImageFile 1 1)])
    (list_to_map [("big.json", GoodJSON big_json)])
    false.

Definition app : App :=
  mkApp (Some "/big") (Some layers) false (list_to_map [("/big", dir)]) [] [].

End Demo3.

Module Demo4.

(** The project of [Demo] with an overlay scale no pixmap can have:
    face.json holds ["scale": 1e999], which [json.load] reads as the
    float [inf]. *)
Definition face_top : TopLayer :=
  mkTop (Some 1) (Some 2) (Some (PFloat (S754_infinity false)))
        (Some PyNum.one) (Some 3) (Some 7) (Some 1) (Some 3).

Definition dir : ProjectDir :=
  with_metadata_file "face.json" (GoodJSON (mkDoc (Some face_top) []))
                     Demo.dir.

Definition app : App :=
  mkApp (Some "/proj") (Some Demo.layers) false
        (list_to_map [("/proj", dir)]) [] [].

End Demo4.

Module Demo5.

(** Two layers that refer to the same legacy metadata file; only b.png
    has its image. *)
Definition shared : LayerRecord :=
  mkLayer None None None (Some "m.json") None.

Definition layers : gmap string LayerRecord :=
  list_to_map [("b.png", shared); ("a.png", shared)].

Definition m_json : MetaDoc :=
  mkDoc (Some (mkTop (Some 0) (Some 0) None None None None None None)) [].

Definition dir : ProjectDir :=
  mkDir (Some (GoodManifest (Some layers))) true
    (list_to_map [("b.png", ImageFile 4 4)])
    (list_to_map [("m.json", GoodJSON m_json)])
    false.

Definition app : App :=
  mkApp (Some "/shared") (Some layers) false
        (list_to_map [("/shared", dir)]) [] [].

End Demo5.

(* ================================================================== *)
(** * Properties *)

(** ** Running handlers *)

(** The arithmetic is reasoned about through its lemmas. *)
#[local] Arguments scaled_dims : simpl never.

(** Unfolds the monad operations of [M]. *)
Ltac unfold_M :=
  unfold mbind, M_bind, mret, M_ret, get, modify, raise, lift, skip, log,
         try_except, project_root, manifest_layers, write_metadata,
         write_dir, mark_dirty.

(** Runs a handler symbolically, as far as the goal determines it. *)
Ltac run_M := repeat (progress (unfold_M; cbn)).

(** The same, using equations about the state as they become usable. *)
Tactic Notation "run_M" "with" constr(H1) :=
  repeat first [progress run_M | rewrite H1].
Tactic Notation "run_M" "with" constr(H1) constr(H2) :=
  repeat first [progress run_M | rewrite H1 | rewrite H2].
Tactic Notation "run_M" "with" constr(H1) constr(H2) constr(H3) :=
  repeat first [progress run_M | rewrite H1 | rewrite H2 | rewrite H3].
Tactic Notation "run_M" "with" constr(H1) constr(H2) constr(H3) constr(H4) :=
  repeat first [progress run_M | rewrite H1 | rewrite H2 | rewrite H3
               | rewrite H4].
Tactic Notation "run_M" "with" constr(H1) constr(H2) constr(H3) constr(H4)
    constr(H5) :=
  repeat first [progress run_M | rewrite H1 | rewrite H2 | rewrite H3
               | rewrite H4 | rewrite H5].
Tactic Notation "run_M" "with" constr(H1) constr(H2) constr(H3) constr(H4)
    constr(H5) constr(H6) :=
  repeat first [progress run_M | rewrite H1 | rewrite H2 | rewrite H3
               | rewrite H4 | rewrite H5 | rewrite H6].

Lemma mark_dirty_run (s : App) : mark_dirty s = (Ok tt, set_is_dirty true s).
Proof.
  destruct s as [p m d k sc l]. unfold mark_dirty. unfold_M. cbn.
  destruct d; reflexivity.
Qed.

Lemma bind_run {A B} (m : M A) (f : A → M B) (s : App) :
  (m ≫= f) s =
  match m s with
  | (Ok a, s') => f a s'
  | (Raise e, s') => (Raise e, s')
  end.
Proof. reflexivity. Qed.

Lemma manifest_layers_run (s : App) (layers : gmap string LayerRecord) :
  manifest s = Some layers → manifest_layers s = (Ok layers, s).
Proof. intros H. unfold manifest_layers. unfold_M. rewrite H. reflexivity. Qed.

Lemma project_root_run (s : App) (root : string) :
  project_path s = Some root → project_root s = (Ok root, s).
Proof. intros H. unfold project_root. unfold_M. rewrite H. reflexivity. Qed.

(** ** Layer kind (C4) *)








(** ** Loading a project (C7) *)

(** C7, amended. When manifest.json of the directory being loaded is
    malformed JSON (and layers/ is there), [load_project] reports
    "Load Failed" and stops: the in-memory manifest, the dirty flag and
    the disk are as before the call, and no project is open any more
    ([project_path] is [None], whatever it was before). *)
Theorem load_project_malformed_manifest (s : App) (path : string)
    (d : ProjectDir) :
  disk s !! path = Some d →
  manifest_json d = Some BadManifest →
  layers_is_dir d = true →
  let r := run (load_project path) s in
  r.1 = Ok tt ∧
  ui_log r.2 = ui_log s ++ [Critical "Load Failed"] ∧
  manifest r.2 = manifest s ∧
  is_dirty r.2 = is_dirty s ∧
  disk r.2 = disk s ∧
  scene r.2 = scene s ∧
  project_path r.2 = None.
Proof.
  intros Hd Hm Hl r. subst r. unfold run, load_project, read_manifest.
  unfold_M. cbn. rewrite Hd. cbn. rewrite Hm, Hl. cbn.
  rewrite Hd. cbn. rewrite Hm. cbn. split_and!; reflexivity.
Qed.

Lemma load_project_malformed_manifest_witness :
  Demo.files !! "/broken" = Some Demo.broken_dir ∧
  manifest_json Demo.broken_dir = Some BadManifest ∧
  layers_is_dir Demo.broken_dir = true ∧
  manifest (run (load_project "/broken") Demo.dirty_app).2 = Some Demo.layers ∧
  project_path (run (load_project "/broken") Demo.dirty_app).2 = None.
Proof.
  split_and!; [reflexivity | reflexivity | reflexivity | |].
  - exact (proj1 (proj2 (proj2 (load_project_malformed_manifest
             Demo.dirty_app "/broken" Demo.broken_dir
             eq_refl eq_refl eq_refl)))).
  - exact (proj2 (proj2 (proj2 (proj2 (proj2 (proj2
             (load_project_malformed_manifest
                Demo.dirty_app "/broken" Demo.broken_dir
                eq_refl eq_refl eq_refl))))))).
Defined.

(** C7 as stated fails: with /proj open, a load of /broken (malformed
    manifest.json) does not leave the project path as it was. *)
Lemma load_project_malformed_forgets_path :
  project_path Demo.dirty_app = Some "/proj" ∧
  (Demo.files !! "/broken" ≫= manifest_json) = Some BadManifest ∧
  project_path (exec (load_project "/broken") Demo.dirty_app) = None ∧
  project_path (exec (load_project "/broken") Demo.dirty_app)
    ≠ project_path Demo.dirty_app.
Proof. split_and!; [reflexivity | reflexivity | reflexivity | discriminate]. Qed.

(** ** Autosave (C9) *)

Lemma save_manifest_ok (s : App) (root : string) (d : ProjectDir) :
  project_path s = Some root →
  disk s !! root = Some d →
  read_only d = false →
  save_manifest s =
  (Ok tt,
   set_disk (<[root := with_manifest_json (Some (GoodManifest (manifest s))) d]>
               (disk s)) s).
Proof.
  intros Hp Hd Hr. unfold save_manifest, write_dir. unfold_M.
  rewrite Hp, Hd, Hr. reflexivity.
Qed.

Lemma save_manifest_fails (s : App) (root : string) :
  project_path s = Some root →
  (disk s !! root = None ∨ ∃ d, disk s !! root = Some d ∧ read_only d = true) →
  save_manifest s = (Raise IOError, s).
Proof.
  intros Hp Hd. unfold save_manifest, write_dir. unfold_M. rewrite Hp.
  destruct Hd as [-> | (d & -> & ->)]; reflexivity.
Qed.

(** C9. With a project open, the autosave trigger saves the manifest and
    clears the dirty flag exactly when the flag is set: with the flag
    clear it changes nothing, with the flag set and a successful write
    manifest.json holds the in-memory manifest and the flag is clear.
    When the write fails with an I/O error the error propagates and the
    state is as before, the flag still set, so the next trigger attempts
    the save again. *)
Theorem auto_save_project_dirty (s : App) (root : string) :
  project_path s = Some root →
  (is_dirty s = false → run auto_save_project s = (Ok tt, s)) ∧
  (is_dirty s = true →
   ∀ d, disk s !! root = Some d → read_only d = false →
     let r := run auto_save_project s in
     r.1 = Ok tt ∧
     is_dirty r.2 = false ∧
     disk r.2 !! root ≫= manifest_json = Some (GoodManifest (manifest s)) ∧
     manifest r.2 = manifest s ∧
     project_path r.2 = Some root) ∧
  (is_dirty s = true →
   (disk s !! root = None ∨
    ∃ d, disk s !! root = Some d ∧ read_only d = true) →
     let r := run auto_save_project s in
     r = (Raise IOError, s) ∧
     is_dirty r.2 = true ∧
     project_path r.2 = Some root).
Proof.
  intros Hp. unfold run, auto_save_project, save_project, save_manifest,
    write_dir.
  split_and!.
  - intros Hd. run_M with Hp Hd. reflexivity.
  - intros Hd d Hdisk Hro. run_M with Hp Hd Hdisk Hro.
    rewrite lookup_insert_eq. split_and!; reflexivity.
  - intros Hd Hfail. run_M with Hp Hd.
    destruct Hfail as [-> | (d & -> & ->)]; cbn;
      (split_and!; [reflexivity | exact Hd | exact Hp]).
Qed.

Lemma auto_save_project_dirty_witness :
  project_path Demo.dirty_app = Some "/proj" ∧
  is_dirty Demo.dirty_app = true ∧
  is_dirty (run auto_save_project Demo.dirty_app).2 = false ∧
  (disk (run auto_save_project Demo.dirty_app).2 !! "/proj" ≫= manifest_json)
    = Some (GoodManifest (Some Demo.layers)).
Proof.
  split; [reflexivity|]. split; [reflexivity|].
  pose proof (proj1 (proj2 (auto_save_project_dirty Demo.dirty_app "/proj"
                              eq_refl)) eq_refl Demo.dir eq_refl eq_refl)
    as (_ & Hflag & Hfile & _).
  split; [exact Hflag | exact Hfile].
Defined.

(** ** Default metadata (C10) *)



(** ** Adding layers (C6) *)




(** ** Manifest cleanup (C2) *)

Lemma lookup_foldl_delete (names : list string)
    (m : gmap string LayerRecord) (name : string) :
  foldl (λ m layer_name, delete layer_name m) m names !! name =
  if decide (name ∈ names) then None else m !! name.
Proof.
  revert m. induction names as [|n names IH]; intros m; cbn.
  - rewrite decide_False by apply not_elem_of_nil. reflexivity.
  - rewrite IH. destruct (decide (name ∈ names)) as [Hin|Hnin].
    + rewrite decide_True by (right; exact Hin). reflexivity.
    + destruct (decide (name = n)) as [->|Hne].
      * rewrite decide_True by left. apply lookup_delete_eq.
      * rewrite decide_False.
        -- apply lookup_delete_ne. congruence.
        -- intros Hin. apply elem_of_cons in Hin as [?|?]; contradiction.
Qed.

Lemma elem_of_missing_layers (s : App) (root : string)
    (layers : gmap string LayerRecord) (name : string) :
  name ∈ missing_layers s root (map_to_list layers).*1 ↔
  is_Some (layers !! name) ∧ layer_exists s root name = false.
Proof.
  unfold missing_layers. rewrite list_elem_of_filter.
  rewrite list_elem_of_fmap. split.
  - intros [Hex ([k v] & -> & Hin)]. split; [|exact Hex].
    apply elem_of_map_to_list in Hin. cbn. eauto.
  - intros [[v Hv] Hex]. split; [exact Hex|].
    exists (name, v). split; [reflexivity|]. apply elem_of_map_to_list, Hv.
Qed.

Lemma cleanup_manifest_run (s : App) (root : string) :
  project_path s = Some root →
  let layers := default ∅ (manifest s) in
  let missing := missing_layers s root (map_to_list layers).*1 in
  cleanup_manifest true s =
  match missing with
  | [] => (Ok tt, exec (log (Information "Cleanup Complete" [])) s)
  | _ =>
      (Ok tt,
       exec (log (Information "Cleanup Summary" missing))
         (set_is_dirty true
            (set_manifest
               (Some (foldl (λ m layer_name, delete layer_name m)
                            layers missing)) s)))
  end.
Proof.
  intros Hp layers missing. unfold cleanup_manifest.
  rewrite bind_run. unfold get at 1. rewrite Hp. cbn [negb].
  fold layers. fold missing. destruct missing as [|m0 ms]; [reflexivity|].
  rewrite !bind_run. unfold modify at 1.
  rewrite bind_run, mark_dirty_run. reflexivity.
Qed.



(** ** Bindings (C8) *)










(** ** Python arithmetic *)

Lemma float_of_int_raise (n : Z) (e : exn) :
  PyNum.float_of_int n = Raise e → e = OverflowError.
Proof.
  unfold PyNum.float_of_int.
  destruct (binary_normalize _ _ _ _ _); intros H; congruence.
Qed.

Lemma int_raise (v : pynum) (e : exn) :
  PyNum.int v = Raise e → e = OverflowError ∨ e = ValueError.
Proof.
  destruct v as [n|[| | |]]; cbn; intros H; try discriminate H;
    injection H as <-; auto.
Qed.

Lemma mul_int_raise (w : Z) (s : pynum) (e : exn) :
  PyNum.mul_int w s = Raise e → e = OverflowError.
Proof.
  destruct s as [n|f]; cbn; [discriminate|].
  destruct (PyNum.float_of_int w) eqn:Hf; cbn; [discriminate|].
  intros H. injection H as <-. eapply float_of_int_raise, Hf.
Qed.

(** The only exceptions of [int(original * scale)]. *)
Lemma scaled_dims_raise (w h : Z) (s : pynum) (e : exn) :
  scaled_dims w h s = Raise e → e = OverflowError ∨ e = ValueError.
Proof.
  unfold scaled_dims.
  destruct (PyNum.mul_int w s) as [pw|e1] eqn:H1; cbn.
  2:{ intros H. injection H as <-. left. eapply mul_int_raise, H1. }
  destruct (PyNum.int pw) as [sw|e2] eqn:H2; cbn.
  2:{ intros H. injection H as <-. eapply int_raise, H2. }
  destruct (PyNum.mul_int h s) as [ph|e3] eqn:H3; cbn.
  2:{ intros H. injection H as <-. left. eapply mul_int_raise, H3. }
  destruct (PyNum.int ph) as [sh|e4] eqn:H4; cbn; [discriminate|].
  intros H. injection H as <-. eapply int_raise, H4.
Qed.


(** [int] of a finite float [(-1)^s * m * 2^e] is the quotient truncated
    toward zero. *)
Lemma int_truncates (sign : bool) (m : positive) (e : Z) :
  PyNum.int (PFloat (S754_finite sign m e)) =
  Ok (Z.quot ((if sign then -1 else 1) * (Z.pos m * 2 ^ Z.max e 0))
             (2 ^ Z.max (- e) 0)).
Proof.
  cbn. f_equal. unfold PyNum.trunc_mag.
  destruct (Z.le_gt_cases 0 e) as [Hpos|Hneg].
  - rewrite Z.shiftl_mul_pow2 by exact Hpos.
    rewrite (Z.max_l e 0), (Z.max_r (- e) 0) by lia.
    rewrite Z.pow_0_r, Z.quot_1_r. destruct sign; lia.
  - rewrite Z.shiftl_div_pow2 by lia.
    rewrite (Z.max_r e 0), (Z.max_l (- e) 0) by lia.
    rewrite Z.pow_0_r, Z.mul_1_r.
    assert (Hpow : 0 < 2 ^ (- e)) by (apply Z.pow_pos_nonneg; lia).
    destruct sign.
    + replace (-1 * Z.pos m) with (- Z.pos m) by lia.
      rewrite Z.quot_opp_l by lia. f_equal.
      symmetry. apply Z.quot_div_nonneg; lia.
    + rewrite Z.mul_1_l. symmetry. apply Z.quot_div_nonneg; lia.
Qed.

(** ** One migration iteration *)

Lemma put_dir_same (s : App) (root : string) (d : ProjectDir) :
  disk s !! root = Some d → put_dir root d s = s.
Proof.
  intros H. unfold put_dir, set_disk. rewrite insert_id by exact H.
  destruct s; reflexivity.
Qed.

Lemma migrate_file_step (links : gmap string string) (root : string)
    (d : ProjectDir) (json_name : string) (s : App) :
  disk s !! root = Some d →
  migrate_file links root json_name s =
  (Ok (migration_step links d json_name).1,
   put_dir root (migration_step links d json_name).2 s).
Proof.
  intros Hd. unfold migrate_file, migrate_body, read_metadata, migration_step.
  run_M with Hd.
  destruct (metadata_dir d !! json_name) as [[|data]|] eqn:Hf;
    run_M; rewrite ?(put_dir_same s root d Hd); try reflexivity.
  destruct (top_layer data) as [info|];
    run_M; rewrite ?(put_dir_same s root d Hd); try reflexivity.
  destruct (bool_decide (is_Some (original_width info)));
    run_M; rewrite ?(put_dir_same s root d Hd); try reflexivity.
  destruct (links !! json_name) as [layer_filename|];
    run_M with Hd; rewrite ?(put_dir_same s root d Hd); try reflexivity.
  destruct (layers_dir d !! layer_filename) as [[w h|]|];
    run_M; rewrite ?(put_dir_same s root d Hd); try reflexivity.
  unfold image_size. run_M.
  destruct (scaled_dims w h (default PyNum.one (top_scale info)))
    as [[sw sh]|e] eqn:Hdims;
    run_M with Hd; rewrite ?(put_dir_same s root d Hd); try reflexivity.
  - destruct (read_only d);
      run_M; rewrite ?(put_dir_same s root d Hd); reflexivity.
  - apply scaled_dims_raise in Hdims as [-> | ->];
      run_M; rewrite ?(put_dir_same s root d Hd); reflexivity.
Qed.

(** ** Scaled dimensions (C5) *)





(** ** Compositor (C1) *)

Lemma StronglySorted_seqZ (m n : Z) : StronglySorted Z.lt (seqZ m n).
Proof.
  destruct (Z.le_gt_cases n 0) as [Hn|Hn].
  - rewrite seqZ_nil by exact Hn. constructor.
  - rewrite <- (Z2Nat.id n) by lia.
    induction (Z.to_nat n) as [|k IH]; [constructor|].
    rewrite seqZ_S. apply StronglySorted_app_2; [| exact IH | repeat constructor].
    intros x1 x2 H1 H2. apply elem_of_seqZ in H1.
    apply list_elem_of_singleton in H2. lia.
Qed.

Lemma set_scene_same (s : App) : set_scene (scene s ++ []) s = s.
Proof. rewrite app_nil_r. destruct s; reflexivity. Qed.

Lemma load_metadata_json_for_layer_run (s : App)
    (layers : gmap string LayerRecord) (name : string) :
  manifest s = Some layers →
  ∃ metadata, load_metadata_json_for_layer name s = (Ok metadata, s).
Proof.
  intros Hm.
  unfold load_metadata_json_for_layer, load_metadata_content_for_layer.
  run_M.
  destruct (negb (truthy name) || negb (bool_decide (is_Some (project_path s))))%bool;
    run_M with Hm; [eauto|].
  destruct (layers !! name) as [data|]; cbn; [|eauto].
  destruct (metadata data) as [fn|]; cbn; [|eauto].
  destruct (truthy fn); cbn; eauto.
Qed.

Lemma draw_with_metadata_run (s : App) (layers : gmap string LayerRecord)
    (name : string) (base_offset : Z * Z) (zv : Z) :
  manifest s = Some layers →
  ∃ op,
    draw_with_metadata name base_offset zv s =
      (Ok tt, set_scene (scene s ++ [op]) s) ∧
    image op = name ∧ z op = zv.
Proof.
  intros Hm. unfold draw_with_metadata.
  destruct (load_metadata_json_for_layer_run s layers name Hm) as [md Hmd].
  rewrite bind_run, Hmd.
  destruct (placement md) as [[[mx my] msc] mop].
  eexists. split; [reflexivity|]. split; reflexivity.
Qed.

Lemma load_metadata_json_for_layer_eq (s : App)
    (layers : gmap string LayerRecord) (name : string) :
  manifest s = Some layers →
  load_metadata_json_for_layer name s = (Ok (metadata_of s layers name), s).
Proof.
  intros Hm.
  unfold load_metadata_json_for_layer, load_metadata_content_for_layer,
    metadata_of.
  run_M.
  destruct (negb (truthy name) || negb (bool_decide (is_Some (project_path s))))%bool;
    run_M with Hm; [reflexivity|].
  destruct (layers !! name) as [data|]; cbn; [|reflexivity].
  destruct (metadata data) as [fn|]; cbn; [|reflexivity].
  destruct (truthy fn); cbn; reflexivity.
Qed.

Lemma image_draw_op (s : App) (layers : gmap string LayerRecord)
    (name : string) (base_offset : Z * Z) (zv : Z) :
  image (draw_op s layers name base_offset zv) = name ∧
  z (draw_op s layers name base_offset zv) = zv.
Proof.
  unfold draw_op.
  destruct (placement (metadata_of s layers name)) as [[[mx my] msc] mop].
  split; reflexivity.
Qed.

Lemma draw_top_layer_eq (s : App) (root : string)
    (layers : gmap string LayerRecord) (name : string) (base_offset : Z * Z)
    (zv : Z) :
  manifest s = Some layers →
  draw_top_layer root name base_offset zv s =
  match top_size s root layers name with
  | Ok _ =>
      (Ok tt, set_scene (scene s ++ [draw_op s layers name base_offset zv]) s)
  | Raise e => (Raise e, s)
  end.
Proof.
  intros Hm. unfold draw_top_layer, draw_op, top_size.
  rewrite bind_run. unfold get at 1.
  rewrite bind_run, (load_metadata_json_for_layer_eq s layers name Hm).
  destruct (placement (metadata_of s layers name)) as [[[mx my] msc] mop].
  cbn [fst snd]. rewrite bind_run. unfold lift at 1.
  destruct (scaled_size (layer_pixmap s root name) msc); reflexivity.
Qed.

Lemma render_bound_loop_run (root : string) (layers : gmap string LayerRecord)
    (base_offset : Z * Z) (names : list string) :
  ∀ (zv : Z) (s : App),
    project_path s = Some root →
    manifest s = Some layers →
    Forall (λ n, layer_exists s root n = true) names →
    ∃ ops,
      render_bound_loop names base_offset zv s =
        (Ok (zv + Z.of_nat (length names)), set_scene (scene s ++ ops) s) ∧
      image <$> ops = names ∧
      z <$> ops = seqZ zv (Z.of_nat (length names)).
Proof.
  induction names as [|n names IH]; intros zv s Hp Hm Hex.
  - exists []. cbn. rewrite Z.add_0_r, set_scene_same. auto.
  - apply Forall_cons in Hex as [Hn Hrest].
    destruct (draw_with_metadata_run s layers n base_offset zv Hm)
      as (op & Hdraw & Himg & Hz).
    destruct (IH (zv + 1) (set_scene (scene s ++ [op]) s) Hp Hm Hrest)
      as (ops & Hloop & Himgs & Hzs).
    exists (op :: ops). split_and!.
    + cbn [render_bound_loop].
      rewrite bind_run, (project_root_run s root Hp).
      rewrite bind_run. unfold get at 1. rewrite Hn.
      rewrite bind_run, Hdraw, Hloop. f_equal.
      * f_equal. cbn [length]. lia.
      * unfold set_scene. cbn. rewrite <- app_assoc. reflexivity.
    + cbn. rewrite Himg, Himgs. reflexivity.
    + cbn [length]. rewrite seqZ_cons by lia. cbn. rewrite Hz, Hzs.
      do 2 f_equal; lia.
Qed.

Lemma render_bound_layers_for_run (root : string)
    (layers : gmap string LayerRecord) (source : string) (data : LayerRecord)
    (names : list string) (base_offset : Z * Z) (zv : Z) (s : App) :
  project_path s = Some root →
  manifest s = Some layers →
  layers !! source = Some data →
  bindings data = Some names →
  Forall (λ n, layer_exists s root n = true) names →
  ∃ ops,
    _render_bound_layers_for source base_offset zv s =
      (Ok (zv + Z.of_nat (length names)), set_scene (scene s ++ ops) s) ∧
    image <$> ops = names ∧
    z <$> ops = seqZ zv (Z.of_nat (length names)).
Proof.
  intros Hp Hm Hl Hb Hex. unfold _render_bound_layers_for.
  rewrite bind_run, (manifest_layers_run s layers Hm), Hl. cbn [mbind option_bind].
  rewrite Hb. cbn [default].
  apply (render_bound_loop_run root layers base_offset names zv s Hp Hm Hex).
Qed.

(** C1, amended. With a project open, a selected base layer with
    bindings [base_bindings] and a selected overlay layer with bindings
    [top_bindings], all image files being present and the size of the
    overlay's scaled pixmap being computable, [update_preview] sets up
    the scene in the order base, overlay, the overlay's bindings, the
    base's bindings, with strictly increasing z-values 0, 1, 2, ... for
    the overlay's bindings and, one step further up, for the base's
    bindings.  For bindings [x, y] of the base and [p, q] of the overlay
    the order is [B, O, p, q, x, y] at z = 0, 1, 2, 3, 5, 6. *)
Theorem update_preview_order (s : App) (root : string)
    (layers : gmap string LayerRecord) (base_name top_name : string)
    (base_data top_data : LayerRecord)
    (base_bindings top_bindings : list string) :
  project_path s = Some root →
  manifest s = Some layers →
  selected base_name = true →
  selected top_name = true →
  layers !! base_name = Some base_data →
  bindings base_data = Some base_bindings →
  layers !! top_name = Some top_data →
  bindings top_data = Some top_bindings →
  Forall (λ n, layer_exists s root n = true)
         (base_name :: top_name :: top_bindings ++ base_bindings) →
  is_Ok (top_size s root layers top_name) →
  let r := run (update_preview base_name top_name) s in
  let n := Z.of_nat (length top_bindings) in
  let m := Z.of_nat (length base_bindings) in
  r.1 = Ok tt ∧
  image <$> scene r.2 = [base_name; top_name] ++ top_bindings ++ base_bindings ∧
  z <$> scene r.2 = [0; 1] ++ seqZ 2 n ++ seqZ (3 + n) m ∧
  StronglySorted Z.lt (z <$> scene r.2) ∧
  (∀ x y p q,
     base_bindings = [x; y] → top_bindings = [p; q] →
     image <$> scene r.2 = [base_name; top_name; p; q; x; y] ∧
     z <$> scene r.2 = [0; 1; 2; 3; 5; 6]).
Proof.
  intros Hp Hm Hsb Hst Hlb Hbb Hlt Hbt Hex [size Hsize] r n m.
  apply Forall_cons in Hex as [Hexb Hex].
  apply Forall_cons in Hex as [Hext Hex].
  apply Forall_app in Hex as [Hextop Hexbase].
  set (s0 := set_scene [] s).
  set (opB := mkOp base_name (0, 0) PyNum.one PyNum.one 0).
  set (s1 := set_scene (scene s0 ++ [opB]) s0).
  set (base_offset := default (0, 0) (layers !! base_name ≫= offset)).
  set (opO := draw_op s layers top_name base_offset 1).
  destruct (image_draw_op s layers top_name base_offset 1) as [HimgO HzO].
  fold opO in HimgO, HzO.
  assert (HdrawO : draw_top_layer root top_name base_offset 1 s1 =
                   (Ok tt, set_scene (scene s1 ++ [opO]) s1)).
  { rewrite (draw_top_layer_eq s1 root layers top_name base_offset 1 Hm).
    change (top_size s1 root layers top_name)
      with (top_size s root layers top_name).
    rewrite Hsize. reflexivity. }
  set (s2 := set_scene (scene s1 ++ [opO]) s1) in *.
  destruct (render_bound_layers_for_run root layers top_name top_data
              top_bindings base_offset (1 + 1) s2 Hp Hm Hlt Hbt Hextop)
    as (ops_top & Htop & Himg_top & Hz_top).
  set (s3 := set_scene (scene s2 ++ ops_top) s2) in *.
  destruct (render_bound_layers_for_run root layers base_name base_data
              base_bindings base_offset
              (1 + 1 + Z.of_nat (length top_bindings) + 1) s3
              Hp Hm Hlb Hbb Hexbase)
    as (ops_base & Hbase & Himg_base & Hz_base).
  assert (Hrun : update_preview base_name top_name s =
                 (Ok tt, set_scene (scene s3 ++ ops_base) s3)).
  { unfold update_preview.
    rewrite bind_run. unfold modify at 1. fold s0.
    rewrite bind_run, (manifest_layers_run s0 layers Hm).
    fold base_offset. rewrite Hsb, Hst.
    rewrite bind_run, bind_run, (project_root_run s0 root Hp).
    rewrite bind_run. unfold get at 1.
    change (layer_exists s0 root base_name) with (layer_exists s root base_name).
    rewrite Hexb. unfold emit at 1, modify at 1. fold opB. fold s1.
    rewrite bind_run, bind_run, (project_root_run s1 root Hp).
    rewrite bind_run. unfold get at 1.
    change (layer_exists s1 root top_name) with (layer_exists s root top_name).
    rewrite Hext.
    change (0 + 1) with 1. rewrite HdrawO.
    rewrite bind_run, Htop, bind_run, Hbase. reflexivity. }
  assert (Himages : image <$> scene r.2 =
                    [base_name; top_name] ++ top_bindings ++ base_bindings).
  { subst r. unfold run. rewrite Hrun. cbn.
    rewrite !fmap_app, Himg_top, Himg_base. cbn. rewrite HimgO. reflexivity. }
  assert (Hzs : z <$> scene r.2 = [0; 1] ++ seqZ 2 n ++ seqZ (3 + n) m).
  { subst r. unfold run. rewrite Hrun. cbn.
    rewrite !fmap_app, Hz_top, Hz_base. cbn. rewrite HzO. subst n m.
    replace (1 + 1 + Z.of_nat (length top_bindings) + 1)
      with (3 + Z.of_nat (length top_bindings)) by lia.
    reflexivity. }
  split_and!.
  - subst r. unfold run. rewrite Hrun. reflexivity.
  - exact Himages.
  - exact Hzs.
  - rewrite Hzs. apply (StronglySorted_app_2 _ [0; 1]).
    + intros x1 x2 H1 H2.
      assert (0 ≤ x1 ≤ 1) as Hx1.
      { apply elem_of_cons in H1 as [->|H1]; [lia|].
        apply list_elem_of_singleton in H1 as ->. lia. }
      apply elem_of_app in H2 as [H2|H2]; apply elem_of_seqZ in H2; lia.
    + repeat constructor.
    + apply StronglySorted_app_2; [| apply StronglySorted_seqZ ..].
      intros x1 x2 H1 H2. apply elem_of_seqZ in H1, H2. lia.
  - intros x y p q -> ->. rewrite Himages, Hzs. split; reflexivity.
Qed.

Lemma update_preview_order_witness :
  Forall (λ n, layer_exists Demo.app "/proj" n = true)
         ("base.png" :: "face.png" :: ["p.png"; "q.png"] ++ ["x.png"; "y.png"]) ∧
  top_size Demo.app "/proj" Demo.layers "face.png" = Ok (1, 3) ∧
  image <$> scene (run (update_preview "base.png" "face.png") Demo.app).2
    = ["base.png"; "face.png"; "p.png"; "q.png"; "x.png"; "y.png"] ∧
  z <$> scene (run (update_preview "base.png" "face.png") Demo.app).2
    = [0; 1; 2; 3; 5; 6].
Proof.
  assert (Hfiles : Forall (λ n, layer_exists Demo.app "/proj" n = true)
            ("base.png" :: "face.png" :: ["p.png"; "q.png"]
               ++ ["x.png"; "y.png"])).
  { apply (bool_decide_unpack _). vm_compute. exact I. }
  assert (Hsize : top_size Demo.app "/proj" Demo.layers "face.png"
                  = Ok (1, 3)) by (vm_compute; reflexivity).
  split; [exact Hfiles|]. split; [exact Hsize|].
  exact (proj2 (proj2 (proj2 (proj2
           (update_preview_order Demo.app "/proj" Demo.layers
              "base.png" "face.png" Demo.base_png Demo.face_png
              ["x.png"; "y.png"] ["p.png"; "q.png"]
              eq_refl eq_refl eq_refl eq_refl eq_refl eq_refl eq_refl eq_refl
              Hfiles (ex_intro _ (1, 3) Hsize)))))
         "x.png" "y.png" "p.png" "q.png" eq_refl eq_refl).
Defined.

(** C1 as stated fails: with every image file present, an overlay
    whose metadata holds a scale that overflows makes [update_preview]
    raise [OverflowError] when it computes the size of the scaled pixmap;
    only the base item has been set up by then, so neither the overlay
    nor any bound layer is drawn. *)
Lemma update_preview_overflow_stops_drawing :
  Forall (λ n, layer_exists Demo4.app "/proj" n = true)
         ["base.png"; "face.png"; "p.png"; "q.png"; "x.png"; "y.png"] ∧
  (Demo.layers !! "base.png" ≫= bindings) = Some ["x.png"; "y.png"] ∧
  (Demo.layers !! "face.png" ≫= bindings) = Some ["p.png"; "q.png"] ∧
  (run (update_preview "base.png" "face.png") Demo4.app).1
    = Raise OverflowError ∧
  image <$> scene (run (update_preview "base.png" "face.png") Demo4.app).2
    = ["base.png"] ∧
  image <$> scene (run (update_preview "base.png" "face.png") Demo4.app).2
    ≠ ["base.png"; "face.png"; "p.png"; "q.png"; "x.png"; "y.png"].
Proof.
  split_and!.
  - apply (bool_decide_unpack _). vm_compute. exact I.
  - reflexivity.
  - reflexivity.
  - vm_compute. reflexivity.
  - vm_compute. reflexivity.
  - vm_compute. discriminate.
Qed.

(** ** Migration (C3) *)

Section MigrationStep.

Variable links : gmap string string.

Lemma migration_step_frame (d : ProjectDir) (f : string) :
  layers_dir (migration_step links d f).2 = layers_dir d ∧
  read_only (migration_step links d f).2 = read_only d ∧
  ∀ g, g ≠ f →
       metadata_dir (migration_step links d f).2 !! g = metadata_dir d !! g.
Proof.
  unfold migration_step.
  repeat case_match; cbn; split_and!; try done;
    intros g Hg; apply lookup_insert_ne; congruence.
Qed.

Lemma outcome_of_ext (d d' : ProjectDir) (f : string) :
  metadata_dir d' !! f = metadata_dir d !! f →
  layers_dir d' = layers_dir d →
  read_only d' = read_only d →
  outcome_of links d' f = outcome_of links d f.
Proof.
  intros Hm Hl Hr. unfold outcome_of, migration_step. rewrite Hm, Hl, Hr.
  repeat case_match; reflexivity.
Qed.

Lemma migration_step_unchanged (d : ProjectDir) (f : string) :
  is_processed (outcome_of links d f) = false →
  (migration_step links d f).2 = d.
Proof.
  unfold outcome_of, migration_step.
  repeat case_match; cbn; intros Hproc; try reflexivity; discriminate Hproc.
Qed.

Lemma migration_step_dom (d : ProjectDir) (f g : string) :
  is_Some (metadata_dir (migration_step links d f).2 !! g) ↔
  is_Some (metadata_dir d !! g).
Proof.
  destruct (decide (g = f)) as [->|Hne].
  - unfold migration_step.
    repeat case_match; cbn; rewrite ?lookup_insert_eq;
      repeat match goal with H : _ !! _ = _ |- _ => rewrite H end;
      try reflexivity; split; intros _; eauto.
  - destruct (migration_step_frame d f) as (_ & _ & Hother).
    rewrite Hother by exact Hne. reflexivity.
Qed.

Lemma migration_step_processed (d : ProjectDir) (f : string) :
  is_processed (outcome_of links d f) = true →
  ∃ doc info,
    metadata_dir (migration_step links d f).2 !! f = Some (GoodJSON doc) ∧
    top_layer doc = Some info ∧
    is_Some (original_width info).
Proof.
  unfold outcome_of, migration_step.
  repeat case_match; cbn; intros Hproc; try discriminate Hproc.
  rewrite lookup_insert_eq. eexists _, _. split_and!; [reflexivity..|].
  cbn. eauto.
Qed.

Lemma outcome_of_migrated (d : ProjectDir) (f : string) (doc : MetaDoc)
    (info : TopLayer) :
  metadata_dir d !! f = Some (GoodJSON doc) →
  top_layer doc = Some info →
  is_Some (original_width info) →
  outcome_of links d f = Skipped.
Proof.
  intros Hf Htop Hw. unfold outcome_of, migration_step.
  rewrite Hf, Htop, bool_decide_true by exact Hw. reflexivity.
Qed.

Lemma outcome_of_after_same (d : ProjectDir) (f : string) :
  outcome_of links (migration_step links d f).2 f =
  settled (outcome_of links d f).
Proof.
  destruct (is_processed (outcome_of links d f)) eqn:Hproc.
  - destruct (migration_step_processed d f Hproc) as (doc & info & H1 & H2 & H3).
    rewrite (outcome_of_migrated _ f doc info H1 H2 H3).
    destruct (outcome_of links d f); try discriminate Hproc. reflexivity.
  - rewrite migration_step_unchanged by exact Hproc.
    destruct (outcome_of links d f); try reflexivity. discriminate Hproc.
Qed.

Lemma outcome_of_after_other (d : ProjectDir) (f g : string) :
  g ≠ f →
  outcome_of links (migration_step links d f).2 g = outcome_of links d g.
Proof.
  intros Hne. destruct (migration_step_frame d f) as (Hl & Hr & Hother).
  apply outcome_of_ext; auto.
Qed.

End MigrationStep.

Lemma foldl_tally_ext (o o' : string → outcome) (files : list string) :
  (∀ f, f ∈ files → o f = o' f) →
  ∀ r, foldl (λ r f, tally (o f) r) r files =
       foldl (λ r f, tally (o' f) r) r files.
Proof.
  induction files as [|f files IH]; intros Hext r; [reflexivity|].
  cbn. rewrite (Hext f) by left. apply IH.
  intros g Hg. apply Hext. right. exact Hg.
Qed.

(** The loop on a directory: every file is classified as in the
    directory the loop started with, and is settled afterwards. *)
Lemma migration_steps_spec (links : gmap string string) (files : list string) :
  ∀ (d : ProjectDir) (r : Report),
    NoDup files →
    (migration_steps links d files r).1 =
      foldl (λ r f, tally (outcome_of links d f) r) r files ∧
    (∀ f, f ∈ files →
          outcome_of links (migration_steps links d files r).2 f =
          settled (outcome_of links d f)) ∧
    (∀ g, g ∉ files →
          outcome_of links (migration_steps links d files r).2 g =
          outcome_of links d g) ∧
    (∀ g, is_Some (metadata_dir (migration_steps links d files r).2 !! g) ↔
          is_Some (metadata_dir d !! g)).
Proof.
  induction files as [|f files IH]; intros d r Hnd.
  - cbn. split_and!; try reflexivity. intros f Hf. by apply not_elem_of_nil in Hf.
  - apply NoDup_cons in Hnd as [Hf Hnd]. cbn [migration_steps].
    set (d1 := (migration_step links d f).2).
    destruct (IH d1 (tally (migration_step links d f).1 r) Hnd)
      as (Hreport & Hin & Hout & Hdom).
    split_and!.
    + rewrite Hreport. cbn [foldl]. apply foldl_tally_ext.
      intros g Hg. apply outcome_of_after_other. intros ->. contradiction.
    + intros g Hg. apply elem_of_cons in Hg as [->|Hg].
      * rewrite Hout by exact Hf. apply outcome_of_after_same.
      * rewrite Hin by exact Hg. f_equal.
        apply outcome_of_after_other. intros ->. contradiction.
    + intros g Hg. apply not_elem_of_cons in Hg as [Hne Hg].
      rewrite Hout by exact Hg. apply outcome_of_after_other, Hne.
    + intros g. rewrite Hdom. apply migration_step_dom.
Qed.

Lemma tally_counts (o : string → outcome) (files : list string) :
  ∀ r,
    let r' := foldl (λ r f, tally (o f) r) r files in
    (processed_count r' =
       processed_count r + count_outcomes is_processed o files)%nat ∧
    (skipped_count r' =
       skipped_count r + count_outcomes is_skipped o files)%nat ∧
    (error_count r' =
       error_count r + count_outcomes is_errored o files)%nat.
Proof.
  unfold count_outcomes.
  induction files as [|f files IH]; intros r; cbn [foldl].
  - cbn. lia.
  - destruct (IH (tally (o f) r)) as (Hp & Hs & He). cbv zeta.
    rewrite Hp, Hs, He, !filter_cons.
    destruct (o f); cbn; repeat case_decide; try discriminate; cbn; lia.
Qed.

Lemma count_outcomes_ext (p : outcome → bool) (o o' : string → outcome)
    (files : list string) :
  (∀ f, f ∈ files → o f = o' f) →
  count_outcomes p o files = count_outcomes p o' files.
Proof.
  unfold count_outcomes. induction files as [|f files IH]; intros Hext.
  - reflexivity.
  - assert (IH' := IH (λ g Hg, Hext g (list_elem_of_further _ _ _ Hg))).
    rewrite !filter_cons, (Hext f) by left.
    case_decide; cbn [length]; rewrite IH'; reflexivity.
Qed.

Lemma count_outcomes_perm (p : outcome → bool) (o : string → outcome)
    (files files' : list string) :
  files ≡ₚ files' →
  count_outcomes p o files = count_outcomes p o files'.
Proof. intros H. unfold count_outcomes. rewrite H. reflexivity. Qed.

Lemma count_outcomes_settled (o : string → outcome) (files : list string) :
  count_outcomes is_processed (λ f, settled (o f)) files = 0%nat ∧
  (count_outcomes is_skipped (λ f, settled (o f)) files =
     count_outcomes is_processed o files + count_outcomes is_skipped o files)%nat ∧
  count_outcomes is_errored (λ f, settled (o f)) files =
    count_outcomes is_errored o files.
Proof.
  unfold count_outcomes. induction files as [|f files (IHp & IHs & IHe)].
  - split_and!; reflexivity.
  - rewrite !filter_cons.
    destruct (o f); cbn; repeat case_decide; try discriminate; cbn;
      rewrite ?IHp, ?IHs, ?IHe; split_and!; lia.
Qed.

Lemma put_dir_lookup (s : App) (root : string) (d : ProjectDir) :
  disk (put_dir root d s) !! root = Some d.
Proof. apply lookup_insert_eq. Qed.

Lemma put_dir_put_dir (s : App) (root : string) (d d' : ProjectDir) :
  put_dir root d' (put_dir root d s) = put_dir root d' s.
Proof. unfold put_dir, set_disk. cbn. rewrite insert_insert_eq. reflexivity. Qed.

(** The loop, when it is not cancelled, is [migration_steps]. *)
Lemma migration_loop_steps (links : gmap string string) (root : string)
    (files : list string) :
  ∀ (i : nat) (r : Report) (s : App) (d : ProjectDir),
    disk s !! root = Some d →
    migration_loop links root files i None r s =
    (Ok (migration_steps links d files r).1,
     put_dir root (migration_steps links d files r).2 s).
Proof.
  induction files as [|f files IH]; intros i r s d Hd.
  - cbn. rewrite put_dir_same by exact Hd. reflexivity.
  - cbn [migration_loop migration_steps].
    rewrite bool_decide_false by discriminate.
    rewrite bind_run, (migrate_file_step links root d f s Hd).
    rewrite (IH (S i) _ _ _ (put_dir_lookup s root _)), put_dir_put_dir.
    reflexivity.
Qed.

(** On files that a run would not process the loop changes nothing and
    counts none as processed, wherever it is cancelled. *)
Lemma migration_loop_settled (links : gmap string string) (root : string)
    (files : list string) :
  ∀ (i : nat) (cancel_at : option nat) (r : Report) (s : App) (d : ProjectDir),
    disk s !! root = Some d →
    Forall (λ f, is_processed (outcome_of links d f) = false) files →
    ∃ r',
      migration_loop links root files i cancel_at r s = (Ok r', s) ∧
      processed_count r' = processed_count r.
Proof.
  induction files as [|f files IH]; intros i cancel_at r s d Hd Hall.
  - exists r. split; reflexivity.
  - apply Forall_cons in Hall as [Hf Hall]. cbn [migration_loop].
    destruct (bool_decide (cancel_at = Some i)); [exists r; split; reflexivity|].
    rewrite bind_run, (migrate_file_step links root d f s Hd).
    rewrite (migration_step_unchanged links d f Hf), put_dir_same by exact Hd.
    destruct (IH (S i) cancel_at (tally (migration_step links d f).1 r) s d
                 Hd Hall) as (r' & Hloop & Hcount).
    exists r'. split; [exact Hloop|]. rewrite Hcount.
    unfold outcome_of in Hf. destruct (migration_step links d f).1;
      try reflexivity. discriminate Hf.
Qed.

Lemma elem_of_glob_json (s : App) (root : string) (d : ProjectDir)
    (f : string) :
  disk s !! root = Some d →
  f ∈ glob_json s root ↔
  is_json_name f = true ∧ is_Some (metadata_dir d !! f).
Proof.
  intros Hd. unfold glob_json. rewrite Hd.
  rewrite list_elem_of_filter, list_elem_of_fmap. split.
  - intros [Hjson ([k v] & -> & Hin)]. split; [exact Hjson|].
    apply elem_of_map_to_list in Hin. cbn. eauto.
  - intros [Hjson [v Hv]]. split; [exact Hjson|].
    exists (f, v). split; [reflexivity|]. apply elem_of_map_to_list, Hv.
Qed.

Lemma NoDup_glob_json (s : App) (root : string) : NoDup (glob_json s root).
Proof.
  unfold glob_json. destruct (disk s !! root); [|constructor].
  apply NoDup_filter, NoDup_fst_map_to_list.
Qed.

Lemma run_migration_script_run (s : App) (root : string)
    (layer_order : list string) (cancel_at : option nat) :
  project_path s = Some root →
  run_migration_script layer_order cancel_at s =
  match glob_json s root with
  | [] => (Ok None, exec (log (Information "Migration Info" [])) s)
  | files =>
      match migration_loop
              (metadata_to_layer_map
                 (dict_items layer_order (default ∅ (manifest s))))
              root files 0 cancel_at empty_report s with
      | (Ok r, s') =>
          (Ok (Some r),
           exec (log (Information "Migration Complete" (summary_lines r))) s')
      | (Raise e, s') => (Raise e, s')
      end
  end.
Proof.
  intros Hp. unfold run_migration_script.
  rewrite bind_run. unfold get at 1. rewrite Hp.
  destruct (glob_json s root) as [|f files]; [reflexivity|].
  rewrite bind_run.
  destruct (migration_loop _ _ _ _ _ _ _) as [[r|e] s']; reflexivity.
Qed.

(** C3. A migration pass that runs to the end, followed by a second pass
    on the metadata files it leaves (cancelled anywhere or not), gives
    zero processed files in the second pass; and a second pass that runs
    to the end counts as skipped every file the first one skipped or
    migrated, and the same errors.  This holds whatever the order
    [layer_order] of the layer records in the manifest. *)
Theorem migration_is_idempotent (s : App) (layer_order : list string)
    (cancel_at : option nat) :
  let first := run (run_migration_script layer_order None) s in
  let second := run (run_migration_script layer_order cancel_at) first.2 in
  ∃ r1 r2,
    first.1 = Ok r1 ∧
    second.1 = Ok r2 ∧
    processed_count (report_of r2) = 0%nat ∧
    (cancel_at = None →
     (skipped_count (report_of r2) =
        skipped_count (report_of r1) + processed_count (report_of r1))%nat ∧
     error_count (report_of r2) = error_count (report_of r1)).
Proof.
  intros first second. subst first second. unfold run.
  destruct (project_path s) as [root|] eqn:Hp.
  2:{ exists None, None. unfold run_migration_script.
      run_M with Hp. split_and!; try reflexivity. intros _. split; reflexivity. }
  rewrite (run_migration_script_run s root layer_order None Hp).
  destruct (glob_json s root) as [|f0 files0] eqn:Hglob.
  { exists None, None. cbn [fst snd].
    rewrite (run_migration_script_run _ root layer_order cancel_at) by exact Hp.
    change (glob_json (exec _ s) root) with (glob_json s root). rewrite Hglob.
    split_and!; try reflexivity. intros _. split; reflexivity. }
  rewrite <- Hglob.
  destruct (disk s !! root) as [d|] eqn:Hd;
    [| unfold glob_json in Hglob; rewrite Hd in Hglob; discriminate Hglob].
  set (links := metadata_to_layer_map
                  (dict_items layer_order (default ∅ (manifest s)))).
  set (files1 := glob_json s root) in *.
  rewrite (migration_loop_steps links root files1 0 empty_report s d Hd).
  pose proof (NoDup_glob_json s root) as Hnd1. fold files1 in Hnd1.
  destruct (migration_steps_spec links files1 d empty_report Hnd1)
    as (Hr1 & Hin1 & _ & Hdom).
  set (r1 := (migration_steps links d files1 empty_report).1) in *.
  set (d' := (migration_steps links d files1 empty_report).2) in *.
  set (s1 := exec (log (Information "Migration Complete" (summary_lines r1)))
                  (put_dir root d' s)).
  cbn [fst snd].
  assert (Hp1 : project_path s1 = Some root) by exact Hp.
  assert (Hd1 : disk s1 !! root = Some d') by apply put_dir_lookup.
  assert (Hlinks : metadata_to_layer_map
                     (dict_items layer_order (default ∅ (manifest s1)))
                   = links)
    by reflexivity.
  set (files2 := glob_json s1 root).
  assert (Hsub : ∀ f, f ∈ files2 ↔ f ∈ files1).
  { intros f. unfold files2, files1.
    rewrite (elem_of_glob_json s1 root d' f Hd1),
            (elem_of_glob_json s root d f Hd), Hdom. reflexivity. }
  pose proof (NoDup_glob_json s1 root) as Hnd2. fold files2 in Hnd2.
  assert (Hperm : files2 ≡ₚ files1) by (apply NoDup_Permutation; assumption).
  assert (Hsettled : ∀ f, f ∈ files2 →
            outcome_of links d' f = settled (outcome_of links d f)).
  { intros f Hf. apply Hin1, Hsub, Hf. }
  assert (Hnone : Forall (λ f, is_processed (outcome_of links d' f) = false)
                         files2).
  { apply Forall_forall. intros f Hf. rewrite (Hsettled f Hf).
    destruct (outcome_of links d f); reflexivity. }
  rewrite (run_migration_script_run s1 root layer_order cancel_at Hp1), Hlinks.
  fold files2.
  destruct (migration_loop_settled links root files2 0 cancel_at empty_report
              s1 d' Hd1 Hnone) as (r2 & Hloop2 & Hproc2).
  assert (Hne2 : files2 ≠ []).
  { intros Hnil. rewrite Hnil in Hperm. symmetry in Hperm.
    apply Permutation_nil_r in Hperm. rewrite Hperm in Hglob.
    discriminate Hglob. }
  destruct files2 as [|f2 files2'] eqn:Hfiles2; [done|].
  rewrite Hloop2. exists (Some r1), (Some r2). cbn [fst snd report_of default].
  split_and!; try reflexivity; [exact Hproc2|].
  intros ->.
  assert (Hr2 : (migration_steps links d' (f2 :: files2') empty_report).1
                = r2).
  { rewrite (migration_loop_steps links root _ 0 empty_report s1 d' Hd1)
      in Hloop2.
    congruence. }
  destruct (migration_steps_spec links (f2 :: files2') d' empty_report Hnd2)
    as (Hr2' & _).
  rewrite Hr2 in Hr2'.
  destruct (tally_counts (outcome_of links d') (f2 :: files2') empty_report)
    as (_ & Hs2 & He2).
  destruct (tally_counts (outcome_of links d) files1 empty_report)
    as (Hp1c & Hs1 & He1).
  cbv zeta in Hs2, He2, Hp1c, Hs1, He1.
  rewrite <- Hr2' in Hs2, He2. rewrite <- Hr1 in Hp1c, Hs1, He1.
  destruct (count_outcomes_settled (outcome_of links d) files1)
    as (_ & Hcs & Hce).
  assert (Hext : ∀ p,
    count_outcomes p (outcome_of links d') (f2 :: files2') =
    count_outcomes p (λ f, settled (outcome_of links d f)) files1).
  { intros p.
    rewrite (count_outcomes_ext p _ (λ f, settled (outcome_of links d f)))
      by exact Hsettled.
    apply count_outcomes_perm, Hperm. }
  unfold id. rewrite Hs2, He2, !Hext, Hcs, Hce, Hs1, Hp1c, He1. cbn.
  split; lia.
Qed.

Lemma migration_is_idempotent_witness :
  (run (run_migration_script Demo.layer_order None) Demo.app).1
    = Ok (Some (mkReport 1 1 0 [])) ∧
  ∃ r2,
    (run (run_migration_script Demo.layer_order None)
         (run (run_migration_script Demo.layer_order None) Demo.app).2).1
      = Ok r2 ∧
    processed_count (report_of r2) = 0%nat ∧
    skipped_count (report_of r2) = 2%nat.
Proof.
  split; [vm_compute; reflexivity|].
  destruct (migration_is_idempotent Demo.app Demo.layer_order None)
    as (r1 & r2 & H1 & H2 & Hprocessed & Hrest).
  exists r2. split; [exact H2|]. split; [exact Hprocessed|].
  destruct (Hrest eq_refl) as [Hskipped _]. rewrite Hskipped.
  assert (Hr1 : r1 = Some (mkReport 1 1 0 [])).
  { assert (Hrun : (run (run_migration_script Demo.layer_order None) Demo.app).1
                   = Ok (Some (mkReport 1 1 0 [])))
      by (vm_compute; reflexivity).
    cbv zeta in H1. rewrite Hrun in H1. congruence. }
  rewrite Hr1. reflexivity.
Defined.

(* ================================================================== *)
(** * Further properties of the handlers *)

(** ** Opening and saving *)

(** When manifest.json is absent from the chosen directory, or layers/ is
    no directory there, [load_project] only shows the "Error" box: the
    project that was open stays open, with its manifest and dirty flag. *)
Theorem load_project_missing_structure (s : App) (path : string) :
  (disk s !! path ≫= manifest_json) = None ∨
  (layers_is_dir <$> disk s !! path) ≠ Some true →
  let r := run (load_project path) s in
  r.1 = Ok tt ∧
  project_path r.2 = project_path s ∧
  manifest r.2 = manifest s ∧
  is_dirty r.2 = is_dirty s ∧
  disk r.2 = disk s ∧
  ui_log r.2 = ui_log s ++ [Critical "Error"].
Proof.
  intros Hmissing r.
  assert (Hguard :
    (negb (bool_decide (is_Some (disk s !! path ≫= manifest_json)))
     || negb match disk s !! path with
             | Some d => layers_is_dir d
             | None => false
             end)%bool = true).
  { destruct Hmissing as [Hm | Hl].
    - rewrite Hm. rewrite bool_decide_false by apply is_Some_None. reflexivity.
    - destruct (disk s !! path) as [d|]; [|apply orb_true_r].
      cbn in Hl. destruct (layers_is_dir d); [congruence|apply orb_true_r]. }
  assert (Hrun : load_project path s =
                 (Ok tt, exec (log (Critical "Error")) s)).
  { unfold load_project. rewrite bind_run. unfold get at 1. cbv zeta.
    rewrite Hguard. reflexivity. }
  subst r. unfold run. rewrite Hrun. split_and!; reflexivity.
Qed.

Lemma load_project_missing_structure_witness :
  (disk Demo.dirty_app !! "/nowhere" ≫= manifest_json) = None ∧
  project_path (run (load_project "/nowhere") Demo.dirty_app).2
    = Some "/proj" ∧
  is_dirty (run (load_project "/nowhere") Demo.dirty_app).2 = true.
Proof.
  split; [reflexivity|].
  pose proof (load_project_missing_structure Demo.dirty_app "/nowhere"
                (or_introl eq_refl)) as (_ & Hpath & _ & Hdirty & _).
  split; [exact Hpath | exact Hdirty].
Defined.





(** ** The preview scene *)

Lemma draw_with_metadata_eq (s : App) (layers : gmap string LayerRecord)
    (name : string) (base_offset : Z * Z) (zv : Z) :
  manifest s = Some layers →
  draw_with_metadata name base_offset zv s =
  (Ok tt, set_scene (scene s ++ [draw_op s layers name base_offset zv]) s).
Proof.
  intros Hm. unfold draw_with_metadata, draw_op.
  rewrite bind_run, (load_metadata_json_for_layer_eq s layers name Hm).
  destruct (placement (metadata_of s layers name)) as [[[mx my] msc] mop].
  reflexivity.
Qed.

Lemma bound_ops_set_scene (s : App) (sc : list DrawOp) (root : string)
    (layers : gmap string LayerRecord) (names : list string)
    (base_offset : Z * Z) :
  ∀ zv, bound_ops (set_scene sc s) root layers names base_offset zv =
        bound_ops s root layers names base_offset zv.
Proof.
  induction names as [|n names IH]; intros zv; [reflexivity|].
  cbn [bound_ops].
  change (layer_exists (set_scene sc s) root n) with (layer_exists s root n).
  change (draw_op (set_scene sc s) layers n base_offset zv)
    with (draw_op s layers n base_offset zv).
  rewrite !IH. reflexivity.
Qed.

Lemma render_bound_loop_eq (root : string) (layers : gmap string LayerRecord)
    (base_offset : Z * Z) (names : list string) :
  ∀ (zv : Z) (s : App),
    project_path s = Some root →
    manifest s = Some layers →
    render_bound_loop names base_offset zv s =
    (Ok (zv + Z.of_nat
                (length (bound_ops s root layers names base_offset zv))),
     set_scene (scene s ++ bound_ops s root layers names base_offset zv) s).
Proof.
  induction names as [|n names IH]; intros zv s Hp Hm.
  - cbn. rewrite Z.add_0_r, set_scene_same. reflexivity.
  - cbn [render_bound_loop bound_ops].
    rewrite bind_run, (project_root_run s root Hp).
    rewrite bind_run. unfold get at 1.
    destruct (layer_exists s root n).
    + rewrite bind_run, (draw_with_metadata_eq s layers n base_offset zv Hm).
      rewrite (IH (zv + 1)
                 (set_scene (scene s ++ [draw_op s layers n base_offset zv]) s)
                 Hp Hm), bound_ops_set_scene.
      f_equal.
      * f_equal. cbn [length]. lia.
      * unfold set_scene. cbn. rewrite <- app_assoc. reflexivity.
    + apply IH; assumption.
Qed.

Lemma image_bound_ops (s : App) (root : string)
    (layers : gmap string LayerRecord) (names : list string)
    (base_offset : Z * Z) :
  ∀ zv, image <$> bound_ops s root layers names base_offset zv =
        on_disk s root names.
Proof.
  unfold on_disk. induction names as [|n names IH]; intros zv; [reflexivity|].
  cbn [bound_ops]. rewrite filter_cons.
  destruct (layer_exists s root n) eqn:Hex.
  - rewrite decide_True by reflexivity. cbn. rewrite IH. f_equal.
    unfold draw_op.
    destruct (placement (metadata_of s layers n)) as [[[mx my] msc] mop].
    reflexivity.
  - rewrite decide_False by discriminate. apply IH.
Qed.

Lemma z_bound_ops (s : App) (root : string)
    (layers : gmap string LayerRecord) (names : list string)
    (base_offset : Z * Z) :
  ∀ zv, z <$> bound_ops s root layers names base_offset zv =
        seqZ zv (Z.of_nat
                   (length (bound_ops s root layers names base_offset zv))).
Proof.
  induction names as [|n names IH]; intros zv; [reflexivity|].
  cbn [bound_ops]. destruct (layer_exists s root n); [|apply IH].
  cbn [fmap list_fmap length]. rewrite seqZ_cons by lia.
  rewrite IH. f_equal.
  - unfold draw_op.
    destruct (placement (metadata_of s layers n)) as [[[mx my] msc] mop].
    reflexivity.
  - f_equal; lia.
Qed.

Lemma render_bound_layers_for_eq (root : string)
    (layers : gmap string LayerRecord) (source : string)
    (base_offset : Z * Z) (zv : Z) (s : App) (sc : list DrawOp) :
  project_path s = Some root →
  manifest s = Some layers →
  _render_bound_layers_for source base_offset zv (set_scene sc s) =
  (Ok (zv + Z.of_nat
              (length (bound_ops s root layers (bindings_of layers source)
                                 base_offset zv))),
   set_scene (sc ++ bound_ops s root layers (bindings_of layers source)
                              base_offset zv) s).
Proof.
  intros Hp Hm. unfold _render_bound_layers_for.
  rewrite bind_run, (manifest_layers_run (set_scene sc s) layers Hm).
  fold (bindings_of layers source).
  rewrite (render_bound_loop_eq root layers base_offset _ zv
             (set_scene sc s) Hp Hm).
  rewrite bound_ops_set_scene. reflexivity.
Qed.

(** [update_preview] in closed form: the scene is [preview_ops], unless
    the size of the overlay cannot be computed; then the exception
    leaves the handler with the base item alone in the scene. *)
Lemma update_preview_eq (s : App) (root : string)
    (layers : gmap string LayerRecord) (base_name top_name : string) :
  project_path s = Some root →
  manifest s = Some layers →
  update_preview base_name top_name s =
  match overlay_check s root layers top_name with
  | Ok _ => (Ok tt, set_scene (preview_ops s root layers base_name top_name) s)
  | Raise e => (Raise e, set_scene (base_ops s root base_name) s)
  end.
Proof.
  intros Hp Hm. unfold update_preview, preview_ops.
  set (base_offset := default (0, 0) (layers !! base_name ≫= offset)).
  set (s0 := set_scene [] s).
  rewrite bind_run. unfold modify at 1. fold s0.
  rewrite bind_run, (manifest_layers_run s0 layers Hm). fold base_offset.
  assert (Hbase :
    (if selected base_name
     then root0 ← project_root;
          s' ← get;
          if layer_exists s' root0 base_name
          then emit (mkOp base_name (0, 0) PyNum.one PyNum.one 0)
          else skip
     else skip) s0 = (Ok tt, set_scene (base_ops s root base_name) s)).
  { unfold base_ops. destruct (selected base_name); [|reflexivity].
    rewrite bind_run, (project_root_run s0 root Hp).
    rewrite bind_run. unfold get at 1.
    change (layer_exists s0 root base_name)
      with (layer_exists s root base_name).
    destruct (layer_exists s root base_name); reflexivity. }
  rewrite bind_run, Hbase. clear Hbase.
  set (s1 := set_scene (base_ops s root base_name) s).
  assert (Htop :
    (if selected top_name
     then root0 ← project_root;
          s' ← get;
          if layer_exists s' root0 top_name
          then draw_top_layer root0 top_name base_offset (0 + 1)
          else skip
     else skip) s1 =
    match overlay_check s root layers top_name with
    | Ok _ =>
        (Ok tt,
         set_scene (base_ops s root base_name
                    ++ top_ops s root layers top_name base_offset) s)
    | Raise e => (Raise e, s1)
    end).
  { unfold top_ops, overlay_check. destruct (selected top_name); cbn [andb].
    2:{ rewrite app_nil_r. reflexivity. }
    rewrite bind_run, (project_root_run s1 root Hp).
    rewrite bind_run. unfold get at 1.
    change (layer_exists s1 root top_name) with (layer_exists s root top_name).
    destruct (layer_exists s root top_name).
    - rewrite (draw_top_layer_eq s1 root layers top_name base_offset _ Hm).
      change (top_size s1 root layers top_name)
        with (top_size s root layers top_name).
      destruct (top_size s root layers top_name); reflexivity.
    - rewrite app_nil_r. reflexivity. }
  rewrite bind_run, Htop. clear Htop.
  destruct (overlay_check s root layers top_name) as [[]|e]; [|reflexivity].
  unfold base_bound_ops, top_bound_ops.
  destruct (selected top_name), (selected base_name);
    rewrite ?bind_run, ?(render_bound_layers_for_eq root layers _ _ _ s _ Hp Hm);
    unfold mret, M_ret, skip;
    rewrite ?bind_run, ?(render_bound_layers_for_eq root layers _ _ _ s _ Hp Hm);
    unfold mret, M_ret, skip;
    rewrite ?app_nil_r, <- ?app_assoc; reflexivity.
Qed.

Lemma on_disk_singleton (s : App) (root name : string) :
  on_disk s root [name] = if layer_exists s root name then [name] else [].
Proof.
  unfold on_disk. rewrite filter_cons, filter_nil.
  destruct (layer_exists s root name); [rewrite decide_True | rewrite decide_False];
    done.
Qed.

Lemma preview_ops_images (s : App) (root : string)
    (layers : gmap string LayerRecord) (base_name top_name : string) :
  image <$> preview_ops s root layers base_name top_name =
  visible_layers s root layers base_name top_name.
Proof.
  unfold preview_ops, visible_layers, base_ops, top_ops, top_bound_ops,
    base_bound_ops.
  rewrite !fmap_app, !on_disk_singleton.
  destruct (selected base_name), (selected top_name); cbn [andb];
    rewrite ?image_bound_ops;
    destruct (layer_exists s root base_name),
             (layer_exists s root top_name); cbn [fmap list_fmap];
    rewrite ?(proj1 (image_draw_op _ _ _ _ _)); reflexivity.
Qed.

Lemma preview_ops_sorted (s : App) (root : string)
    (layers : gmap string LayerRecord) (base_name top_name : string) :
  StronglySorted Z.lt (z <$> preview_ops s root layers base_name top_name).
Proof.
  unfold preview_ops.
  set (off := default (0, 0) (layers !! base_name ≫= offset)).
  rewrite !fmap_app.
  assert (Hb : ∀ x, x ∈ z <$> base_ops s root base_name → x = 0).
  { unfold base_ops. intros x.
    destruct (selected base_name && layer_exists s root base_name)%bool; cbn;
      intros Hx; [apply list_elem_of_singleton in Hx; exact Hx
                 | by apply not_elem_of_nil in Hx]. }
  assert (Ht : ∀ x, x ∈ z <$> top_ops s root layers top_name off → x = 1).
  { unfold top_ops. intros x.
    destruct (selected top_name && layer_exists s root top_name)%bool; cbn;
      intros Hx; [| by apply not_elem_of_nil in Hx].
    apply list_elem_of_singleton in Hx. rewrite Hx. apply image_draw_op. }
  set (n := Z.of_nat (length (top_bound_ops s root layers top_name off))).
  assert (Htb : ∀ x, x ∈ z <$> top_bound_ops s root layers top_name off →
                     2 ≤ x < 2 + n).
  { subst n. unfold top_bound_ops. intros x.
    destruct (selected top_name); [| intros Hx; by apply not_elem_of_nil in Hx].
    rewrite z_bound_ops. intros Hx. apply elem_of_seqZ in Hx. exact Hx. }
  assert (Hbb : ∀ x,
    x ∈ z <$> base_bound_ops s root layers base_name top_name off →
    2 + n ≤ x).
  { unfold base_bound_ops. fold n. intros x.
    destruct (selected base_name); [| intros Hx; by apply not_elem_of_nil in Hx].
    rewrite z_bound_ops. intros Hx. apply elem_of_seqZ in Hx as [Hx _].
    subst n. unfold top_bound_ops in *. destruct (selected top_name);
      cbn [length] in *; lia. }
  assert (Hone : ∀ l : list Z, (length l ≤ 1)%nat → StronglySorted Z.lt l).
  { intros [|a [|b l]] Hlen;
      [constructor | repeat constructor | cbn in Hlen; lia]. }
  apply StronglySorted_app_2; [| |apply StronglySorted_app_2; [| |apply StronglySorted_app_2]].
  - intros x1 x2 H1 H2. apply Hb in H1.
    rewrite !elem_of_app in H2. destruct H2 as [H2|[H2|H2]];
      [apply Ht in H2 | apply Htb in H2 | apply Hbb in H2]; lia.
  - apply Hone. unfold base_ops. destruct (_ && _)%bool; cbn; lia.
  - intros x1 x2 H1 H2. apply Ht in H1.
    rewrite !elem_of_app in H2. destruct H2 as [H2|H2];
      [apply Htb in H2 | apply Hbb in H2]; lia.
  - apply Hone. unfold top_ops. destruct (_ && _)%bool; cbn; lia.
  - intros x1 x2 H1 H2. apply Htb in H1. apply Hbb in H2. lia.
  - unfold top_bound_ops. destruct (selected top_name); [|constructor].
    rewrite z_bound_ops. apply StronglySorted_seqZ.
  - unfold base_bound_ops. destruct (selected base_name); [|constructor].
    rewrite z_bound_ops. apply StronglySorted_seqZ.
Qed.

(** A missing image file never makes the preview fail; it is skipped.
    With a project open, when the size of the overlay's scaled pixmap can
    be computed (or no overlay is drawn), [update_preview] returns
    normally: whatever is selected and whatever the binding lists name,
    it draws exactly the selected layers and bound layers whose image
    file exists, in the order base, top, top's bindings, base's bindings,
    at strictly increasing z-values.  When that size cannot be computed,
    the exception of the computation leaves the handler, and the scene
    holds the base item alone. *)
Theorem update_preview_skips_missing (s : App) (root : string)
    (layers : gmap string LayerRecord) (base_name top_name : string) :
  project_path s = Some root →
  manifest s = Some layers →
  let r := run (update_preview base_name top_name) s in
  (overlay_check s root layers top_name = Ok tt →
   r.1 = Ok tt ∧
   image <$> scene r.2 = visible_layers s root layers base_name top_name ∧
   Forall (λ n, layer_exists s root n = true) (image <$> scene r.2) ∧
   StronglySorted Z.lt (z <$> scene r.2)) ∧
  (∀ e, overlay_check s root layers top_name = Raise e →
        r.1 = Raise e ∧
        image <$> scene r.2 =
          if selected base_name then on_disk s root [base_name] else []).
Proof.
  intros Hp Hm r. subst r. unfold run.
  rewrite (update_preview_eq s root layers base_name top_name Hp Hm).
  split.
  - intros ->. cbn [fst snd scene set_scene]. split_and!.
    + reflexivity.
    + apply preview_ops_images.
    + rewrite preview_ops_images. unfold visible_layers, on_disk.
      rewrite !Forall_app. split_and!;
        repeat case_match; try constructor;
        apply Forall_forall; intros n Hn; apply list_elem_of_filter in Hn;
        apply Hn.
    + apply preview_ops_sorted.
  - intros e ->. cbn [fst snd scene set_scene]. split; [reflexivity|].
    rewrite on_disk_singleton. unfold base_ops.
    destruct (selected base_name), (layer_exists s root base_name);
      reflexivity.
Qed.

Lemma update_preview_skips_missing_witness :
  overlay_check Demo2.app "/other" Demo2.layers "arm.png" = Ok tt ∧
  image <$> scene (run (update_preview "body.png" "arm.png") Demo2.app).2
    = ["body.png"; "arm.png"; "arm.png"] ∧
  z <$> scene (run (update_preview "body.png" "arm.png") Demo2.app).2
    = [0; 1; 3].
Proof.
  assert (Hsize : overlay_check Demo2.app "/other" Demo2.layers "arm.png"
                  = Ok tt) by (vm_compute; reflexivity).
  split; [exact Hsize|].
  pose proof (proj1 (update_preview_skips_missing Demo2.app "/other"
                       Demo2.layers "body.png" "arm.png" eq_refl eq_refl)
                Hsize) as (_ & Himg & _).
  split; [exact Himg | vm_compute; reflexivity].
Defined.

(** [update_preview] only reads the project: in every state and for every
    selection -- also when it raises because no project is open or the
    manifest has no "layers" -- nothing but the scene differs afterwards. *)
Theorem update_preview_changes_only_scene (s : App)
    (base_name top_name : string) :
  let r := run (update_preview base_name top_name) s in
  project_path r.2 = project_path s ∧
  manifest r.2 = manifest s ∧
  is_dirty r.2 = is_dirty s ∧
  disk r.2 = disk s ∧
  ui_log r.2 = ui_log s.
Proof.
  intros r. subst r. unfold run.
  destruct (manifest s) as [layers|] eqn:Hm.
  - destruct (project_path s) as [root|] eqn:Hp.
    + rewrite (update_preview_eq s root layers base_name top_name Hp Hm).
      destruct (overlay_check s root layers top_name);
        cbn; rewrite Hp, Hm; split_and!; reflexivity.
    + unfold update_preview, _render_bound_layers_for.
      destruct (selected base_name), (selected top_name);
        run_M with Hm Hp; rewrite ?Hm, ?Hp; split_and!; reflexivity.
  - unfold update_preview. run_M with Hm. rewrite ?Hm. split_and!; reflexivity.
Qed.

Lemma bound_ops_are_draw_ops (s : App) (root : string)
    (layers : gmap string LayerRecord) (names : list string)
    (base_offset : Z * Z) :
  ∀ zv op,
    op ∈ bound_ops s root layers names base_offset zv →
    zv ≤ z op ∧ op = draw_op s layers (image op) base_offset (z op).
Proof.
  induction names as [|n names IH]; intros zv op Hop; cbn [bound_ops] in Hop.
  - by apply not_elem_of_nil in Hop.
  - destruct (layer_exists s root n).
    + apply elem_of_cons in Hop as [->|Hop].
      * destruct (image_draw_op s layers n base_offset zv) as [-> ->].
        split; [lia | reflexivity].
      * apply IH in Hop as [Hz Hop]. split; [lia | exact Hop].
    + apply IH, Hop.
Qed.

(** The offset of the selected base layer shifts everything drawn above
    the base, and not the base itself: the base item is at (0, 0) with
    z = 0; every other item is at the base offset plus the x and y of its
    own metadata (plus (0, 0) when it has none), with the scale and
    opacity of that metadata. *)
Theorem update_preview_applies_base_offset (s : App) (root : string)
    (layers : gmap string LayerRecord) (base_name top_name : string) :
  project_path s = Some root →
  manifest s = Some layers →
  let base_offset := default (0, 0) (layers !! base_name ≫= offset) in
  ∀ op,
    op ∈ scene (exec (update_preview base_name top_name) s) →
    (z op = 0 ∧ image op = base_name ∧ pos op = (0, 0)) ∨
    (1 ≤ z op ∧
     let meta := placement (metadata_of s layers (image op)) in
     pos op = (base_offset.1 + meta.1.1.1, base_offset.2 + meta.1.1.2) ∧
     scale op = meta.1.2 ∧
     opacity op = meta.2).
Proof.
  intros Hp Hm base_offset op. unfold exec.
  rewrite (update_preview_eq s root layers base_name top_name Hp Hm).
  assert (Hbase : op ∈ base_ops s root base_name →
                  z op = 0 ∧ image op = base_name ∧ pos op = (0, 0)).
  { unfold base_ops. intros Hop.
    destruct (_ && _)%bool; [| by apply not_elem_of_nil in Hop].
    apply list_elem_of_singleton in Hop as ->. split_and!; reflexivity. }
  destruct (overlay_check s root layers top_name) as [[]|e];
    cbn [snd scene set_scene]; [|intros Hop; left; apply Hbase, Hop].
  unfold preview_ops. fold base_offset.
  assert (Hdraw : ∀ zv, 1 ≤ zv →
    op = draw_op s layers (image op) base_offset zv → zv = z op →
    1 ≤ z op ∧
    let meta := placement (metadata_of s layers (image op)) in
    pos op = (base_offset.1 + meta.1.1.1, base_offset.2 + meta.1.1.2) ∧
    scale op = meta.1.2 ∧ opacity op = meta.2).
  { intros zv Hzv Hop Hz. split; [lia|]. cbv zeta. rewrite Hop at 1 4 6.
    unfold draw_op.
    destruct (placement (metadata_of s layers (image op)))
      as [[[mx my] msc] mop].
    split_and!; reflexivity. }
  rewrite !elem_of_app. intros [Hop|[Hop|[Hop|Hop]]].
  - left. apply Hbase, Hop.
  - right. unfold top_ops in Hop.
    destruct (_ && _)%bool; [| by apply not_elem_of_nil in Hop].
    apply list_elem_of_singleton in Hop.
    destruct (image_draw_op s layers top_name base_offset 1) as [Hi Hz].
    apply (Hdraw 1); [lia | | rewrite Hop, Hz; reflexivity].
    rewrite Hop at 1. rewrite Hop, Hi. reflexivity.
  - right. unfold top_bound_ops in Hop.
    destruct (selected top_name); [| by apply not_elem_of_nil in Hop].
    apply bound_ops_are_draw_ops in Hop as [Hz Hop].
    apply (Hdraw (z op)); [lia | exact Hop | reflexivity].
  - right. unfold base_bound_ops in Hop.
    destruct (selected base_name); [| by apply not_elem_of_nil in Hop].
    apply bound_ops_are_draw_ops in Hop as [Hz Hop].
    apply (Hdraw (z op)); [| exact Hop | reflexivity].
    destruct (selected top_name); lia.
Qed.

Lemma update_preview_applies_base_offset_witness :
  pos <$> scene (exec (update_preview "body.png" "arm.png") Demo2.app)
    = [(0, 0); (8, 11); (8, 11)] ∧
  Forall (λ op, z op = 0 ∨ 1 ≤ z op)
         (scene (exec (update_preview "body.png" "arm.png") Demo2.app)).
Proof.
  split; [reflexivity|]. apply Forall_forall. intros op Hop.
  destruct (update_preview_applies_base_offset Demo2.app "/other"
              Demo2.layers "body.png" "arm.png" eq_refl eq_refl op Hop)
    as [(Hz & _) | (Hz & _)]; [left | right]; exact Hz.
Defined.

(** ** Removing a layer *)

Lemma remove_layer_run (s : App) (root : string) (d : ProjectDir)
    (layers : gmap string LayerRecord) (layer_name : string) :
  project_path s = Some root →
  manifest s = Some layers →
  disk s !! root = Some d →
  read_only d = false →
  remove_layer (Some layer_name) true s =
  (Ok tt,
   set_is_dirty true
     (put_dir root (without_layer_file layer_name d)
        (set_manifest (Some (delete layer_name layers)) s))).
Proof.
  intros Hp Hm Hd Hro. unfold remove_layer, unlink_layer.
  rewrite bind_run, (manifest_layers_run s layers Hm).
  rewrite bind_run. unfold modify at 1.
  set (s1 := set_manifest (Some (delete layer_name layers)) s).
  rewrite bind_run, (project_root_run s1 root Hp).
  rewrite bind_run, bind_run. unfold get at 1.
  change (layer_exists s1 root layer_name)
    with (layer_exists s root layer_name).
  unfold layer_exists. rewrite Hd.
  destruct (layers_dir d !! layer_name) as [f|] eqn:Hf.
  - rewrite bool_decide_true by eauto. unfold write_dir.
    rewrite bind_run. unfold get at 1.
    change (disk s1 !! root) with (disk s !! root). rewrite Hd, Hro.
    unfold modify at 1. apply mark_dirty_run.
  - rewrite bool_decide_false by (apply is_Some_None). unfold skip, mret, M_ret.
    rewrite mark_dirty_run. f_equal. f_equal.
    assert (Hsame : without_layer_file layer_name d = d).
    { unfold without_layer_file. rewrite delete_id by exact Hf.
      destruct d; reflexivity. }
    rewrite Hsame. symmetry. apply put_dir_same. exact Hd.
Qed.



(** When the image file cannot be deleted because the project directory
    is not writable, [remove_layer] raises the I/O error after the record
    has left the in-memory manifest: the file stays, the record is gone,
    and the dirty flag is as it was. *)
Theorem remove_layer_unlink_fails (s : App) (root : string) (d : ProjectDir)
    (layers : gmap string LayerRecord) (layer_name : string) :
  project_path s = Some root →
  manifest s = Some layers →
  disk s !! root = Some d →
  read_only d = true →
  is_Some (layers_dir d !! layer_name) →
  let r := run (remove_layer (Some layer_name) true) s in
  r.1 = Raise IOError ∧
  manifest r.2 = Some (delete layer_name layers) ∧
  disk r.2 = disk s ∧
  is_dirty r.2 = is_dirty s.
Proof.
  intros Hp Hm Hd Hro Hf r. subst r.
  unfold run, remove_layer, unlink_layer, layer_exists.
  run_M with Hm Hp Hd. rewrite bool_decide_true by exact Hf.
  run_M with Hd Hro. split_and!; reflexivity.
Qed.

Lemma remove_layer_unlink_fails_witness :
  is_Some (layers_dir Demo2.locked_dir !! "arm.png") ∧
  (run (remove_layer (Some "arm.png") true) Demo2.locked_app).1
    = Raise IOError ∧
  is_dirty (run (remove_layer (Some "arm.png") true) Demo2.locked_app).2
    = false.
Proof.
  assert (Hfile : is_Some (layers_dir Demo2.locked_dir !! "arm.png"))
    by (eexists; reflexivity).
  split; [exact Hfile|].
  pose proof (remove_layer_unlink_fails Demo2.locked_app "/locked"
                Demo2.locked_dir Demo2.layers "arm.png"
                eq_refl eq_refl eq_refl eq_refl Hfile)
    as (Hres & _ & _ & Hdirty).
  split; [exact Hres | exact Hdirty].
Defined.

Lemma visible_layers_on_disk (s : App) (root : string)
    (layers : gmap string LayerRecord) (base_name top_name n : string) :
  n ∈ visible_layers s root layers base_name top_name →
  layer_exists s root n = true.
Proof.
  unfold visible_layers, on_disk. rewrite !elem_of_app.
  intros [H|[H|[H|H]]];
    repeat case_match; try (by apply not_elem_of_nil in H);
    apply list_elem_of_filter in H; apply H.
Qed.

(** A layer that was removed is never drawn afterwards, whatever is
    selected in the preview and whether or not the redraw runs to its
    end: a binding that still names it is skipped, not an error, and
    selecting the removed layer itself as overlay cannot make the redraw
    fail. *)
Theorem removed_layer_is_not_drawn (s : App) (root : string)
    (d : ProjectDir) (layers : gmap string LayerRecord)
    (layer_name base_name top_name : string) :
  project_path s = Some root →
  manifest s = Some layers →
  disk s !! root = Some d →
  read_only d = false →
  let removed := exec (remove_layer (Some layer_name) true) s in
  let r := run (update_preview base_name top_name) removed in
  (top_name = layer_name → r.1 = Ok tt) ∧
  layer_name ∉ image <$> scene r.2.
Proof.
  intros Hp Hm Hd Hro removed r. subst r removed. unfold exec, run.
  rewrite (remove_layer_run s root d layers layer_name Hp Hm Hd Hro).
  cbn [snd].
  set (s' := set_is_dirty true _).
  assert (Hgone : layer_exists s' root layer_name = false).
  { unfold layer_exists, s', put_dir. cbn.
    rewrite lookup_insert_eq. cbn. rewrite lookup_delete_eq.
    apply bool_decide_false, is_Some_None. }
  rewrite (update_preview_eq s' root (delete layer_name layers)
             base_name top_name Hp eq_refl).
  split.
  - intros ->. unfold overlay_check. rewrite Hgone, andb_false_r.
    reflexivity.
  - destruct (overlay_check s' root (delete layer_name layers) top_name)
      as [[]|e]; cbn [snd scene set_scene]; intros Hin.
    + rewrite preview_ops_images in Hin.
      apply visible_layers_on_disk in Hin. congruence.
    + unfold base_ops in Hin.
      destruct (selected base_name);
        destruct (layer_exists s' root base_name) eqn:Hbase;
        cbn in Hin; try (by apply not_elem_of_nil in Hin).
      apply list_elem_of_singleton in Hin. congruence.
Qed.

Lemma removed_layer_is_not_drawn_witness :
  image <$> scene (run (update_preview "body.png" "<None>")
                       (exec (remove_layer (Some "arm.png") true)
                             Demo2.app)).2 = ["body.png"] ∧
  "arm.png" ∉ image <$> scene (run (update_preview "body.png" "<None>")
                                   (exec (remove_layer (Some "arm.png") true)
                                         Demo2.app)).2.
Proof.
  split; [vm_compute; reflexivity|].
  exact (proj2 (removed_layer_is_not_drawn Demo2.app "/other" Demo2.dir
                  Demo2.layers "arm.png" "body.png" "<None>"
                  eq_refl eq_refl eq_refl eq_refl)).
Defined.

(** ** Cleanup, again *)

(** Cleanup is idempotent: run a second time (nothing having changed on
    disk), a confirmed [cleanup_manifest] finds no orphaned record; it
    reports "Cleanup Complete" and leaves the manifest and the dirty flag
    as the first run left them. *)
Theorem cleanup_manifest_twice (s : App) (root : string) :
  project_path s = Some root →
  let once := exec (cleanup_manifest true) s in
  let twice := run (cleanup_manifest true) once in
  twice.1 = Ok tt ∧
  manifest twice.2 = manifest once ∧
  is_dirty twice.2 = is_dirty once ∧
  disk twice.2 = disk s ∧
  ui_log twice.2 = ui_log once ++ [Information "Cleanup Complete" []].
Proof.
  intros Hp once twice.
  assert (Hp1 : project_path once = Some root).
  { subst once. unfold exec. rewrite (cleanup_manifest_run s root Hp).
    cbv zeta. destruct (missing_layers _ _ _); exact Hp. }
  assert (Hdisk : disk once = disk s).
  { subst once. unfold exec. rewrite (cleanup_manifest_run s root Hp).
    cbv zeta. destruct (missing_layers _ _ _); reflexivity. }
  assert (Hkeys : ∀ name, is_Some (default ∅ (manifest once) !! name) →
                          layer_exists s root name = true).
  { intros name. subst once. unfold exec.
    rewrite (cleanup_manifest_run s root Hp). cbv zeta.
    set (layers := default ∅ (manifest s)).
    pose proof (elem_of_missing_layers s root layers name) as Hin.
    destruct (missing_layers s root (map_to_list layers).*1)
      as [|m0 ms] eqn:Hmiss.
    - cbn. fold layers. intros Hsome.
      destruct (layer_exists s root name) eqn:Hex; [reflexivity|].
      exfalso. apply (not_elem_of_nil name), Hin.
      split; [assumption|reflexivity].
    - change (is_Some (foldl (λ m layer_name, delete layer_name m)
                             layers (m0 :: ms) !! name) →
              layer_exists s root name = true).
      rewrite lookup_foldl_delete.
      destruct (decide (name ∈ m0 :: ms)) as [Hi|Hni];
        [intros Hsome; by apply is_Some_None in Hsome|].
      intros Hsome.
      destruct (layer_exists s root name) eqn:Hex; [reflexivity|].
      exfalso. apply Hni, Hin. split; [assumption|reflexivity]. }
  assert (Hnone : missing_layers once root
                    (map_to_list (default ∅ (manifest once))).*1 = []).
  { apply elem_of_nil_inv. intros name Hin.
    apply elem_of_missing_layers in Hin as [Hsome Hex].
    apply Hkeys in Hsome. unfold layer_exists in *.
    rewrite Hdisk in Hex. congruence. }
  subst twice. unfold run.
  rewrite (cleanup_manifest_run once root Hp1). cbv zeta. rewrite Hnone.
  cbn. split_and!; try reflexivity. exact Hdisk.
Qed.

Lemma cleanup_manifest_twice_witness :
  manifest (run (cleanup_manifest true)
                (exec (cleanup_manifest true) Demo.app)).2
    = Some (delete "gone.png" Demo.layers) ∧
  manifest (run (cleanup_manifest true)
                (exec (cleanup_manifest true) Demo.app)).2
    = manifest (exec (cleanup_manifest true) Demo.app).
Proof.
  split; [vm_compute; reflexivity|].
  exact (proj1 (proj2 (cleanup_manifest_twice Demo.app "/proj" eq_refl))).
Defined.

(** ** Editing a record *)



(** The handlers that edit the selected record fail in the same way on a
    list entry that has no record: [update_layer_type],
    [update_base_offset], [update_layer_description] and [clear_metadata]
    raise [KeyError] and leave the whole state as it was; without a
    selected entry they do nothing. *)
Theorem record_editors_need_a_record (s : App)
    (layers : gmap string LayerRecord) (layer_name : string) :
  manifest s = Some layers →
  layers !! layer_name = None →
  (∀ checked,
     run (update_layer_type (Some layer_name) checked) s = (Raise KeyError, s)) ∧
  (∀ x y,
     run (update_base_offset (Some layer_name) x y) s = (Raise KeyError, s)) ∧
  (∀ text,
     run (update_layer_description (Some layer_name) text) s
     = (Raise KeyError, s)) ∧
  run (clear_metadata (Some layer_name)) s = (Raise KeyError, s) ∧
  (∀ checked, run (update_layer_type None checked) s = (Ok tt, s)) ∧
  (∀ x y, run (update_base_offset None x y) s = (Ok tt, s)) ∧
  (∀ text, run (update_layer_description None text) s = (Ok tt, s)) ∧
  run (clear_metadata None) s = (Ok tt, s).
Proof.
  intros Hm Hl.
  unfold run, update_layer_type, update_base_offset,
    update_layer_description, clear_metadata.
  split_and!; intros; try reflexivity;
    rewrite bind_run, (manifest_layers_run s layers Hm), Hl; reflexivity.
Qed.

Lemma record_editors_need_a_record_witness :
  Demo.layers !! "nobody.png" = None ∧
  run (clear_metadata (Some "nobody.png")) Demo.app
    = (Raise KeyError, Demo.app).
Proof.
  split; [reflexivity|].
  exact (proj1 (proj2 (proj2 (proj2
           (record_editors_need_a_record Demo.app Demo.layers "nobody.png"
              eq_refl eq_refl))))).
Defined.





(** ** Default metadata, continued *)

Lemma truthy_metadata_filename (layer_name : string) :
  truthy (stem layer_name +:+ ".json") = true.
Proof. unfold truthy. destruct (stem layer_name); reflexivity. Qed.

Lemma create_and_assign_metadata_run (s : App) (root : string)
    (d : ProjectDir) (layers : gmap string LayerRecord) (layer_name : string)
    (data : LayerRecord) :
  project_path s = Some root →
  disk s !! root = Some d →
  read_only d = false →
  manifest s = Some layers →
  layers !! layer_name = Some data →
  let metadata_filename := stem layer_name +:+ ".json" in
  _create_and_assign_metadata layer_name s =
  (Ok (Some metadata_filename),
   set_is_dirty true
     (set_manifest
        (Some (<[layer_name := with_metadata (Some metadata_filename) data]>
                 layers))
        (put_dir root
           (with_metadata_file metadata_filename
              (GoodJSON (default_metadata (image_dims d layer_name).1
                                          (image_dims d layer_name).2)) d)
           s))).
Proof.
  intros Hp Hd Hro Hm Hl fname. subst fname.
  unfold _create_and_assign_metadata, image_dims, cur_dir, write_metadata,
    put_dir.
  run_M with Hp Hd Hro.
  destruct (layers_dir d !! layer_name) as [f|];
    [destruct (pixmap_size f) as [w h]|];
    run_M with Hd Hro Hm Hl;
    (destruct (is_dirty s) eqn:Hdirty; run_M; [|reflexivity]);
    unfold set_is_dirty, set_manifest, set_disk; cbn; rewrite Hdirty;
    reflexivity.
Qed.

Lemma create_and_assign_metadata_fails (s : App) (root : string)
    (layer_name : string) :
  project_path s = Some root →
  (∀ d, disk s !! root = Some d → read_only d = true) →
  _create_and_assign_metadata layer_name s = (Ok None, s).
Proof.
  intros Hp Hro.
  unfold _create_and_assign_metadata.
  rewrite bind_run, (project_root_run s root Hp).
  rewrite bind_run. unfold get at 1.
  destruct (match cur_dir s ≫= _ with
            | Some f => pixmap_size f
            | None => (0, 0)
            end) as [w h].
  unfold write_metadata.
  destruct (disk s !! root) as [d|] eqn:Hd.
  - specialize (Hro d eq_refl). run_M with Hd Hro. reflexivity.
  - run_M with Hd. reflexivity.
Qed.

(** When the metadata file cannot be written (the project directory is
    missing or not writable), [_create_and_assign_metadata] returns
    [None] and changes nothing: the record gets no reference and the
    project does not become dirty.  [create_metadata_file] then reports
    "Error" and changes nothing else. *)
Theorem create_metadata_write_failure (s : App) (root : string)
    (layer_name : string) (overwrite : bool) :
  project_path s = Some root →
  (∀ d, disk s !! root = Some d → read_only d = true) →
  run (_create_and_assign_metadata layer_name) s = (Ok None, s) ∧
  (metadata_exists s root (stem layer_name +:+ ".json") = false
   ∨ overwrite = true →
   run (create_metadata_file (Some layer_name) overwrite) s =
     (Ok tt, exec (log (Critical "Error")) s)).
Proof.
  intros Hp Hro. split.
  - apply create_and_assign_metadata_fails with root; assumption.
  - intros Hgo. unfold run, create_metadata_file.
    rewrite bind_run, (project_root_run s root Hp).
    rewrite bind_run. unfold get at 1.
    replace (metadata_exists s root (stem layer_name +:+ ".json")
             && negb overwrite)%bool with false
      by (destruct Hgo as [-> | ->]; [reflexivity | symmetry; apply andb_false_r]).
    rewrite bind_run, (create_and_assign_metadata_fails s root layer_name Hp Hro).
    reflexivity.
Qed.

Lemma create_metadata_write_failure_witness :
  run (_create_and_assign_metadata "arm.png") Demo2.locked_app
    = (Ok None, Demo2.locked_app) ∧
  ui_log (run (create_metadata_file (Some "arm.png") true)
              Demo2.locked_app).2 = [Critical "Error"].
Proof.
  assert (Hro : ∀ d, disk Demo2.locked_app !! "/locked" = Some d →
                     read_only d = true).
  { intros d Hd. vm_compute in Hd. injection Hd as <-. reflexivity. }
  destruct (create_metadata_write_failure Demo2.locked_app "/locked"
              "arm.png" true eq_refl Hro) as [Hinner Houter].
  split; [exact Hinner|].
  rewrite Houter by (right; reflexivity). reflexivity.
Defined.

(** Creating the default metadata and reading it back: for a layer of the
    manifest (its name not empty) in a writable project,
    [load_metadata_json_for_layer] returns, right after
    [_create_and_assign_metadata], the default document with the four
    dimension fields set from the layer's pixmap (0 without an image), so
    that the compositor places the layer at (0, 0) with scale and opacity
    1.0; no other metadata file and no layer file is touched. *)
Theorem create_metadata_then_load (s : App) (root : string)
    (d : ProjectDir) (layers : gmap string LayerRecord) (layer_name : string)
    (data : LayerRecord) :
  truthy layer_name = true →
  project_path s = Some root →
  disk s !! root = Some d →
  read_only d = false →
  manifest s = Some layers →
  layers !! layer_name = Some data →
  let s' := exec (_create_and_assign_metadata layer_name) s in
  let '(w, h) := image_dims d layer_name in
  (load_metadata_json_for_layer layer_name s').1 =
    Ok (Some (default_metadata w h)) ∧
  placement (Some (default_metadata w h)) = (0, 0, PyNum.one, PyNum.one) ∧
  (∃ d', disk s' !! root = Some d' ∧
         layers_dir d' = layers_dir d ∧
         ∀ fn, fn ≠ stem layer_name +:+ ".json" →
               metadata_dir d' !! fn = metadata_dir d !! fn).
Proof.
  intros Hname Hp Hd Hro Hm Hl s'. subst s'. unfold exec.
  rewrite (create_and_assign_metadata_run s root d layers layer_name data
             Hp Hd Hro Hm Hl).
  destruct (image_dims d layer_name) as [w h]. cbn [fst snd].
  split_and!.
  - erewrite load_metadata_json_for_layer_eq by reflexivity.
    cbn [fst]. f_equal. unfold metadata_of, cur_dir. cbn.
    rewrite Hname, Hp. cbn. rewrite !lookup_insert_eq. cbn.
    rewrite lookup_insert_eq, truthy_metadata_filename. reflexivity.
  - reflexivity.
  - eexists. split; [apply put_dir_lookup|]. split; [reflexivity|].
    intros fn Hne. cbn. apply lookup_insert_ne. congruence.
Qed.

Lemma create_metadata_then_load_witness :
  (load_metadata_json_for_layer "x.png"
     (exec (_create_and_assign_metadata "x.png") Demo.app)).1 =
    Ok (Some (default_metadata 8 8)).
Proof.
  exact (proj1 (create_metadata_then_load Demo.app "/proj" Demo.dir
                  Demo.layers "x.png" empty_record
                  eq_refl eq_refl eq_refl eq_refl eq_refl eq_refl)).
Defined.



(** ** The metadata spin boxes, continued *)

(** The handler, for a layer whose metadata file parses to a non-empty
    document: the edited "top_layer" is written, or "Save Error" is
    reported. *)
Lemma update_metadata_from_spinboxes_cases (s : App) (root : string)
    (d : ProjectDir) (layers : gmap string LayerRecord) (layer_name : string)
    (data : LayerRecord) (metadata_filename : string) (doc : MetaDoc)
    (x y : Z) (new_scale opacity : spec_float) :
  truthy layer_name = true →
  project_path s = Some root →
  disk s !! root = Some d →
  manifest s = Some layers →
  layers !! layer_name = Some data →
  metadata data = Some metadata_filename →
  truthy metadata_filename = true →
  metadata_dir d !! metadata_filename = Some (GoodJSON doc) →
  doc_truthy doc = true →
  update_metadata_from_spinboxes (Some layer_name) x y new_scale opacity s =
  match edited_top_layer doc x y new_scale opacity with
  | Raise e => (Raise e, s)
  | Ok info' =>
      if read_only d
      then (Ok tt, exec (log (Critical "Save Error")) s)
      else (Ok tt,
            set_is_dirty true
              (put_dir root
                 (with_metadata_file metadata_filename
                    (GoodJSON (with_top_layer info' doc)) d) s))
  end.
Proof.
  intros Hname Hp Hd Hm Hl Hmeta Hfn Hfile Htruthy.
  unfold update_metadata_from_spinboxes.
  rewrite bind_run, (load_metadata_json_for_layer_eq s layers layer_name Hm).
  unfold metadata_of, cur_dir. rewrite Hname, Hp, Hl. cbn.
  rewrite Hmeta, Hfn, Hd. cbn. rewrite Hfile, Htruthy. cbn [negb].
  unfold edited_top_layer. cbn [with_spinboxes original_width original_height].
  assert (Hwrite : ∀ info' : TopLayer,
    (layers ← manifest_layers;
     match layers !! layer_name ≫= metadata with
     | None => skip
     | Some metadata_filename =>
         if negb (truthy metadata_filename) then skip
         else
           root ← project_root;
           try_except
             (write_metadata root metadata_filename
                             (with_top_layer info' doc);;
              mark_dirty)
             (λ e, bool_decide (e = IOError ∨ e = TypeError))
             (λ _, log (Critical "Save Error"))
     end) s =
    if read_only d
    then (Ok tt, exec (log (Critical "Save Error")) s)
    else (Ok tt,
          set_is_dirty true
            (put_dir root
               (with_metadata_file metadata_filename
                  (GoodJSON (with_top_layer info' doc)) d) s))).
  { intros info'.
    rewrite bind_run, (manifest_layers_run s layers Hm), Hl. cbn.
    rewrite Hmeta, Hfn. cbn [negb].
    rewrite bind_run, (project_root_run s root Hp).
    unfold try_except, write_metadata, write_dir, put_dir.
    rewrite !bind_run. unfold get at 1. rewrite Hd.
    destruct (read_only d); [reflexivity|].
    unfold modify at 1. rewrite mark_dirty_run. reflexivity. }
  rewrite bind_run.
  destruct (original_width (default empty_top (top_layer doc))) as [w|];
    [destruct (original_height (default empty_top (top_layer doc))) as [h|]|].
  - rewrite bind_run. unfold lift at 1.
    destruct (scaled_dims w h (PFloat new_scale)) as [[sw sh]|e]; [|reflexivity].
    cbn [mbind result_bind mret result_ret]. apply Hwrite.
  - apply Hwrite.
  - apply Hwrite.
Qed.






(** When the metadata file cannot be written, the spin box handler
    reports "Save Error" and returns normally; nothing is written, the
    manifest is unchanged and the project does not become dirty. *)
Theorem spinboxes_write_failure (s : App) (root : string)
    (d : ProjectDir) (layers : gmap string LayerRecord) (layer_name : string)
    (data : LayerRecord) (metadata_filename : string) (doc : MetaDoc)
    (x y : Z) (new_scale opacity : spec_float) (info' : TopLayer) :
  truthy layer_name = true →
  project_path s = Some root →
  disk s !! root = Some d →
  read_only d = true →
  manifest s = Some layers →
  layers !! layer_name = Some data →
  metadata data = Some metadata_filename →
  truthy metadata_filename = true →
  metadata_dir d !! metadata_filename = Some (GoodJSON doc) →
  doc_truthy doc = true →
  edited_top_layer doc x y new_scale opacity = Ok info' →
  let r := run (update_metadata_from_spinboxes (Some layer_name)
                  x y new_scale opacity) s in
  r.1 = Ok tt ∧
  disk r.2 = disk s ∧
  manifest r.2 = manifest s ∧
  is_dirty r.2 = is_dirty s ∧
  ui_log r.2 = ui_log s ++ [Critical "Save Error"].
Proof.
  intros Hname Hp Hd Hro Hm Hl Hmeta Hfn Hfile Htruthy Hedit r. subst r.
  unfold run.
  rewrite (update_metadata_from_spinboxes_cases s root d layers layer_name
             data metadata_filename doc x y new_scale opacity
             Hname Hp Hd Hm Hl Hmeta Hfn Hfile Htruthy).
  rewrite Hedit, Hro. split_and!; reflexivity.
Qed.

Lemma spinboxes_write_failure_witness :
  ui_log (run (update_metadata_from_spinboxes (Some "arm.png") 1 2
                 Demo.half Demo.half) Demo2.locked_app).2
    = [Critical "Save Error"] ∧
  disk (run (update_metadata_from_spinboxes (Some "arm.png") 1 2
               Demo.half Demo.half) Demo2.locked_app).2
    = Demo2.files.
Proof.
  destruct (spinboxes_write_failure Demo2.locked_app "/locked"
              Demo2.locked_dir Demo2.layers "arm.png"
              (mkLayer None None None (Some "arm.json") None) "arm.json"
              Demo2.arm_json 1 2 Demo.half Demo.half
              (with_spinboxes 1 2 (PFloat Demo.half) (PFloat Demo.half)
                 (mkTop (Some 3) (Some 4) None None None None None None))
              eq_refl eq_refl eq_refl eq_refl eq_refl eq_refl eq_refl
              eq_refl eq_refl eq_refl eq_refl)
    as (_ & Hdisk & _ & _ & Hlog).
  split; [exact Hlog | exact Hdisk].
Defined.

(** The handler catches [IOError] and [TypeError] only: when computing
    the scaled size fails (the stored original size is too large for a
    float), the exception leaves the handler and the state is the one
    before the call -- in particular the file is not rewritten. *)
Theorem spinboxes_overflow_propagates (s : App) (root : string)
    (d : ProjectDir) (layers : gmap string LayerRecord) (layer_name : string)
    (data : LayerRecord) (metadata_filename : string) (doc : MetaDoc)
    (info : TopLayer) (w h x y : Z) (new_scale opacity : spec_float)
    (e : exn) :
  truthy layer_name = true →
  project_path s = Some root →
  disk s !! root = Some d →
  manifest s = Some layers →
  layers !! layer_name = Some data →
  metadata data = Some metadata_filename →
  truthy metadata_filename = true →
  metadata_dir d !! metadata_filename = Some (GoodJSON doc) →
  top_layer doc = Some info →
  original_width info = Some w →
  original_height info = Some h →
  scaled_dims w h (PFloat new_scale) = Raise e →
  run (update_metadata_from_spinboxes (Some layer_name)
         x y new_scale opacity) s = (Raise e, s) ∧
  (e = OverflowError ∨ e = ValueError).
Proof.
  intros Hname Hp Hd Hm Hl Hmeta Hfn Hfile Htop Hw Hh Hdims.
  split; [|exact (scaled_dims_raise w h _ e Hdims)].
  unfold run.
  rewrite (update_metadata_from_spinboxes_cases s root d layers layer_name
             data metadata_filename doc x y new_scale opacity
             Hname Hp Hd Hm Hl Hmeta Hfn Hfile).
  - unfold edited_top_layer. rewrite Htop. cbn. rewrite Hw, Hh, Hdims.
    reflexivity.
  - unfold doc_truthy. rewrite Htop. reflexivity.
Qed.

Lemma spinboxes_overflow_propagates_witness :
  run (update_metadata_from_spinboxes (Some "big.png") 0 0
         Demo.half Demo.half) Demo3.app = (Raise OverflowError, Demo3.app).
Proof.
  exact (proj1 (spinboxes_overflow_propagates Demo3.app "/big" Demo3.dir
                  Demo3.layers "big.png" Demo3.big_png "big.json"
                  Demo3.big_json Demo3.big_top (2 ^ 1024) 1 0 0
                  Demo.half Demo.half OverflowError
                  eq_refl eq_refl eq_refl eq_refl eq_refl eq_refl eq_refl
                  eq_refl eq_refl eq_refl eq_refl eq_refl)).
Defined.

(** ** Migration, continued *)

Lemma migration_step_placement (links : gmap string string)
    (d : ProjectDir) (f g : string) :
  file_placement (migration_step links d f).2 g = file_placement d g.
Proof.
  unfold file_placement.
  destruct (decide (g = f)) as [->|Hne].
  - destruct (is_processed (outcome_of links d f)) eqn:Hproc.
    + revert Hproc. unfold outcome_of, migration_step.
      destruct (metadata_dir d !! f) as [[|data]|] eqn:Hf;
        try (cbn; discriminate).
      destruct (top_layer data) as [info|] eqn:Htop;
        try (cbn; discriminate).
      destruct (bool_decide (is_Some (original_width info)));
        try (cbn; discriminate).
      destruct (links !! f) as [layer_filename|]; try (cbn; discriminate).
      destruct (layers_dir d !! layer_filename) as [[w h|]|];
        try (cbn; discriminate).
      destruct (scaled_dims w h (default PyNum.one (top_scale info)))
        as [[sw sh]|e]; try (cbn; discriminate).
      destruct (read_only d); try (cbn; discriminate).
      intros _. cbn. rewrite lookup_insert_eq, ?Hf.
      unfold placement. cbn. rewrite ?Htop. reflexivity.
    + rewrite migration_step_unchanged by exact Hproc. reflexivity.
  - destruct (migration_step_frame links d f) as (_ & _ & Hother).
    rewrite Hother by exact Hne. reflexivity.
Qed.

(** The loop, wherever it is cancelled: it returns a report and leaves a
    directory with the same layer files and the same placements. *)
Lemma migration_loop_frame (links : gmap string string) (root : string)
    (files : list string) :
  ∀ (i : nat) (cancel_at : option nat) (r : Report) (s : App) (d : ProjectDir),
    disk s !! root = Some d →
    ∃ r' d',
      migration_loop links root files i cancel_at r s =
        (Ok r', put_dir root d' s) ∧
      layers_dir d' = layers_dir d ∧
      (∀ g, file_placement d' g = file_placement d g).
Proof.
  induction files as [|f files IH]; intros i cancel_at r s d Hd.
  - exists r, d. cbn. rewrite put_dir_same by exact Hd. done.
  - cbn [migration_loop].
    destruct (bool_decide (cancel_at = Some i)).
    { exists r, d. rewrite put_dir_same by exact Hd. done. }
    rewrite bind_run, (migrate_file_step links root d f s Hd).
    destruct (IH (S i) cancel_at (tally (migration_step links d f).1 r)
                 (put_dir root (migration_step links d f).2 s)
                 (migration_step links d f).2 (put_dir_lookup s root _))
      as (r' & d' & Hloop & Hlayers & Hplace).
    exists r', d'. rewrite Hloop, put_dir_put_dir. split_and!.
    + reflexivity.
    + rewrite Hlayers. apply (migration_step_frame links d f).
    + intros g. rewrite Hplace. apply migration_step_placement.
Qed.

Lemma draw_op_ext (s s' : App) (layers : gmap string LayerRecord)
    (name : string) (base_offset : Z * Z) (zv : Z) :
  placement (metadata_of s' layers name) = placement (metadata_of s layers name) →
  draw_op s' layers name base_offset zv = draw_op s layers name base_offset zv.
Proof. intros H. unfold draw_op. rewrite H. reflexivity. Qed.

Lemma bound_ops_ext (s s' : App) (root : string)
    (layers : gmap string LayerRecord) (names : list string)
    (base_offset : Z * Z) :
  (∀ n, layer_exists s' root n = layer_exists s root n) →
  (∀ n, placement (metadata_of s' layers n) =
        placement (metadata_of s layers n)) →
  ∀ zv, bound_ops s' root layers names base_offset zv =
        bound_ops s root layers names base_offset zv.
Proof.
  intros Hex Hpl. induction names as [|n names IH]; intros zv; [reflexivity|].
  cbn. rewrite Hex, !IH, (draw_op_ext s s') by apply Hpl. reflexivity.
Qed.

(** The scene depends on the disk only through the presence of the layer
    files and the placements read from the metadata files. *)
Lemma preview_ops_ext (s s' : App) (root : string)
    (layers : gmap string LayerRecord) (base_name top_name : string) :
  (∀ n, layer_exists s' root n = layer_exists s root n) →
  (∀ n, placement (metadata_of s' layers n) =
        placement (metadata_of s layers n)) →
  preview_ops s' root layers base_name top_name =
  preview_ops s root layers base_name top_name.
Proof.
  intros Hex Hpl.
  unfold preview_ops, base_ops, top_ops, base_bound_ops, top_bound_ops.
  rewrite !Hex, !(bound_ops_ext s s' root layers _ _ Hex Hpl),
    (draw_op_ext s s') by apply Hpl.
  reflexivity.
Qed.

(** So does the whole run of [update_preview], the size computed for
    the overlay included. *)
Lemma update_preview_ext (s s' : App) (root : string)
    (layers : gmap string LayerRecord) (base_name top_name : string) :
  project_path s = Some root →
  manifest s = Some layers →
  project_path s' = Some root →
  manifest s' = Some layers →
  (∀ n, layer_exists s' root n = layer_exists s root n) →
  (∀ n, layer_pixmap s' root n = layer_pixmap s root n) →
  (∀ n, placement (metadata_of s' layers n) =
        placement (metadata_of s layers n)) →
  (update_preview base_name top_name s').1 =
    (update_preview base_name top_name s).1 ∧
  scene (update_preview base_name top_name s').2 =
    scene (update_preview base_name top_name s).2.
Proof.
  intros Hp Hm Hp' Hm' Hex Hpix Hpl.
  rewrite (update_preview_eq s' root layers base_name top_name Hp' Hm').
  rewrite (update_preview_eq s root layers base_name top_name Hp Hm).
  assert (Hcheck : overlay_check s' root layers top_name =
                   overlay_check s root layers top_name).
  { unfold overlay_check, top_size. rewrite Hex, Hpix, Hpl. reflexivity. }
  rewrite Hcheck.
  destruct (overlay_check s root layers top_name) as [[]|e];
    cbn [fst snd scene set_scene]; (split; [reflexivity|]).
  - apply preview_ops_ext; assumption.
  - unfold base_ops. rewrite Hex. reflexivity.
Qed.

Lemma placement_metadata_of (s : App) (root : string) (d : ProjectDir)
    (layers : gmap string LayerRecord) (name : string) :
  project_path s = Some root →
  disk s !! root = Some d →
  placement (metadata_of s layers name) =
  if truthy name then
    match layers !! name ≫= metadata with
    | Some metadata_filename =>
        if truthy metadata_filename
        then file_placement d metadata_filename
        else placement None
    | None => placement None
    end
  else placement None.
Proof.
  intros Hp Hd. unfold metadata_of, cur_dir, file_placement.
  rewrite Hp. cbn. rewrite Hd. cbn.
  destruct (truthy name); cbn; [|reflexivity].
  destruct (layers !! name ≫= metadata) as [fn|]; [|reflexivity].
  destruct (truthy fn); [|reflexivity].
  destruct (metadata_dir d !! fn) as [[|doc]|]; reflexivity.
Qed.

(** Migration does not change what is drawn.  With a project open,
    [run_migration_script] -- cancelled anywhere or not -- never raises,
    leaves the manifest, the dirty flag and the project path as they are,
    and after it [update_preview] sets up, for every choice of the two
    combo boxes, the same scene as before it: no layer file is touched
    and every metadata file keeps its x, y, scale and opacity. *)
Theorem migration_keeps_the_preview (s : App) (root : string)
    (layers : gmap string LayerRecord) (layer_order : list string)
    (cancel_at : option nat) (base_name top_name : string) :
  project_path s = Some root →
  manifest s = Some layers →
  let r := run (run_migration_script layer_order cancel_at) s in
  (∃ report, r.1 = Ok report) ∧
  project_path r.2 = project_path s ∧
  manifest r.2 = manifest s ∧
  is_dirty r.2 = is_dirty s ∧
  (run (update_preview base_name top_name) r.2).1 =
  (run (update_preview base_name top_name) s).1 ∧
  scene (exec (update_preview base_name top_name) r.2) =
  scene (exec (update_preview base_name top_name) s).
Proof.
  intros Hp Hm r. subst r. unfold run.
  rewrite (run_migration_script_run s root layer_order cancel_at Hp).
  destruct (glob_json s root) as [|f0 files0] eqn:Hglob.
  { cbn [fst snd].
    set (s' := exec (log _) s).
    assert (Hp' : project_path s' = Some root) by exact Hp.
    assert (Hm' : manifest s' = Some layers) by exact Hm.
    destruct (update_preview_ext s s' root layers base_name top_name
                Hp Hm Hp' Hm') as [Hres Hscene];
      try (intros n; reflexivity).
    split_and!; eauto. }
  destruct (disk s !! root) as [d|] eqn:Hd;
    [| unfold glob_json in Hglob; rewrite Hd in Hglob; discriminate Hglob].
  destruct (migration_loop_frame
              (metadata_to_layer_map
                 (dict_items layer_order (default ∅ (manifest s))))
              root (f0 :: files0) 0 cancel_at empty_report s d Hd)
    as (r' & d' & Hloop & Hlayers & Hplace).
  rewrite Hloop. cbn [fst snd].
  set (s' := exec (log _) (put_dir root d' s)).
  assert (Hp' : project_path s' = Some root) by exact Hp.
  assert (Hm' : manifest s' = Some layers) by exact Hm.
  assert (Hd' : disk s' !! root = Some d') by apply put_dir_lookup.
  destruct (update_preview_ext s s' root layers base_name top_name
              Hp Hm Hp' Hm') as [Hres Hscene]; [..|split_and!; eauto].
  - intros n. unfold layer_exists. rewrite Hd', Hd, Hlayers. reflexivity.
  - intros n. unfold layer_pixmap. rewrite Hd', Hd. cbn.
    rewrite Hlayers. reflexivity.
  - intros n.
    rewrite (placement_metadata_of s' root d' layers n Hp' Hd').
    rewrite (placement_metadata_of s root d layers n Hp Hd).
    destruct (truthy n); [|reflexivity].
    destruct (layers !! n ≫= metadata) as [fn|]; [|reflexivity].
    rewrite Hplace. reflexivity.
Qed.

Lemma migration_keeps_the_preview_witness :
  scene (exec (update_preview "base.png" "hat.png")
           (run (run_migration_script Demo.layer_order None) Demo.app).2) =
  scene (exec (update_preview "base.png" "hat.png") Demo.app) ∧
  stored_top (run (run_migration_script Demo.layer_order None) Demo.app).2
             "/proj" "hat.json"
    ≠ stored_top Demo.app "/proj" "hat.json".
Proof.
  split.
  - exact (proj2 (proj2 (proj2 (proj2 (proj2
             (migration_keeps_the_preview Demo.app "/proj" Demo.layers
                Demo.layer_order None
                "base.png" "hat.png" eq_refl eq_refl)))))).
  - vm_compute. discriminate.
Defined.

Lemma count_outcomes_total (o : string → outcome) (files : list string) :
  (count_outcomes is_processed o files + count_outcomes is_skipped o files
   + count_outcomes is_errored o files)%nat = length files.
Proof.
  unfold count_outcomes. induction files as [|f files IH]; [reflexivity|].
  rewrite !filter_cons.
  destruct (o f); cbn; repeat case_decide; try discriminate; cbn; lia.
Qed.

Lemma tally_messages (o : string → outcome) (files : list string) :
  ∀ r,
    length (error_messages r) = error_count r →
    let r' := foldl (λ r f, tally (o f) r) r files in
    length (error_messages r') = error_count r'.
Proof.
  induction files as [|f files IH]; intros r Hr; [exact Hr|].
  cbn [foldl]. apply IH.
  destruct (o f); cbn; rewrite ?length_app; cbn; lia.
Qed.

(** A migration run that is not cancelled accounts for every file: with
    at least one .json file under metadata/, the report counts each of
    them exactly once -- as migrated, skipped or failed, according to its
    state when the run began and to the layer that refers to it, which
    for a file shared by several layers is the last of them in the order
    of the dict -- so the three counters add up to the number of .json
    files, and there is one error line per failure. *)
Theorem migration_counts_every_file (s : App) (root : string)
    (layer_order : list string) :
  project_path s = Some root →
  glob_json s root ≠ [] →
  ∃ d report,
    disk s !! root = Some d ∧
    (run (run_migration_script layer_order None) s).1 = Ok (Some report) ∧
    let links :=
      metadata_to_layer_map
        (dict_items layer_order (default ∅ (manifest s))) in
    let o := outcome_of links d in
    let files := glob_json s root in
    processed_count report = count_outcomes is_processed o files ∧
    skipped_count report = count_outcomes is_skipped o files ∧
    error_count report = count_outcomes is_errored o files ∧
    (processed_count report + skipped_count report + error_count report)%nat
      = length files ∧
    length (error_messages report) = error_count report.
Proof.
  intros Hp Hglob. unfold run.
  rewrite (run_migration_script_run s root layer_order None Hp).
  destruct (disk s !! root) as [d|] eqn:Hd;
    [| unfold glob_json in Hglob; rewrite Hd in Hglob; done].
  set (links := metadata_to_layer_map
                  (dict_items layer_order (default ∅ (manifest s)))).
  destruct (glob_json s root) as [|f0 files0] eqn:Hg; [done|].
  rewrite <- Hg. clear Hglob.
  set (files := glob_json s root) in *.
  rewrite (migration_loop_steps links root files 0 empty_report s d Hd).
  destruct (migration_steps_spec links files d empty_report
              (NoDup_glob_json s root)) as (Hr & _).
  destruct (tally_counts (outcome_of links d) files empty_report)
    as (Hpc & Hsc & Hec).
  pose proof (tally_messages (outcome_of links d) files empty_report eq_refl)
    as Hmsg.
  pose proof (count_outcomes_total (outcome_of links d) files) as Htotal.
  cbv zeta in Hpc, Hsc, Hec, Hmsg. rewrite <- Hr in Hpc, Hsc, Hec, Hmsg.
  exists d, (migration_steps links d files empty_report).1.
  split; [reflexivity|]. split; [reflexivity|].
  cbv zeta. cbn in Hpc, Hsc, Hec.
  rewrite Hpc, Hsc, Hec. split_and!; try reflexivity; [exact Htotal|].
  rewrite Hmsg. exact Hec.
Qed.

Lemma migration_counts_every_file_witness :
  (∃ report,
     (run (run_migration_script ["b.png"; "a.png"] None) Demo5.app).1
       = Ok (Some report) ∧
     processed_count report = 0%nat ∧ error_count report = 1%nat) ∧
  (∃ report,
     (run (run_migration_script ["a.png"; "b.png"] None) Demo5.app).1
       = Ok (Some report) ∧
     processed_count report = 1%nat ∧ error_count report = 0%nat).
Proof.
  assert (Hglob : glob_json Demo5.app "/shared" ≠ [])
    by (vm_compute; discriminate).
  split.
  - destruct (migration_counts_every_file Demo5.app "/shared"
                ["b.png"; "a.png"] eq_refl Hglob)
      as (d & report & Hd & Hrun & Hproc & _ & Herr & _).
    assert (d = Demo5.dir) as ->.
    { assert (Hdir : disk Demo5.app !! "/shared" = Some Demo5.dir)
        by reflexivity.
      congruence. }
    exists report. split; [exact Hrun|].
    rewrite Hproc, Herr. split; vm_compute; reflexivity.
  - destruct (migration_counts_every_file Demo5.app "/shared"
                ["a.png"; "b.png"] eq_refl Hglob)
      as (d & report & Hd & Hrun & Hproc & _ & Herr & _).
    assert (d = Demo5.dir) as ->.
    { assert (Hdir : disk Demo5.app !! "/shared" = Some Demo5.dir)
        by reflexivity.
      congruence. }
    exists report. split; [exact Hrun|].
    rewrite Hproc, Herr. split; vm_compute; reflexivity.
Defined.

(** ** Bindings, continued *)



Lemma elem_of_sorted (names : list string) (c : string) :
  c ∈ sorted names ↔ c ∈ names.
Proof. unfold sorted. by rewrite merge_sort_Permutation. Qed.








(** ** Adding layers, continued *)




Lemma add_layer_loop_fails (s : App) (root : string) (is_base : bool)
    (overwrite : string → bool) (paths : list (string * LayerSource)) :
  project_path s = Some root →
  (∀ d, disk s !! root = Some d → read_only d = true) →
  Exists (λ p, layer_exists s root p.1 = false ∨ overwrite p.1 = true) paths →
  add_layer_loop paths is_base overwrite s = (Raise IOError, s).
Proof.
  intros Hp Hro. induction paths as [|[name src] paths IH]; intros Hex.
  - by apply Exists_nil in Hex.
  - cbn [add_layer_loop].
    rewrite bind_run, (project_root_run s root Hp).
    rewrite bind_run. unfold get at 1.
    destruct (layer_exists s root name && negb (overwrite name))%bool eqn:Hskip.
    + apply IH. apply Exists_cons in Hex as [[Hno|Hyes]|Hex]; [..|exact Hex];
        cbn [fst] in *; apply andb_true_iff in Hskip as [Hskip1 Hskip2].
      * congruence.
      * rewrite Hyes in Hskip2. discriminate.
    + rewrite bind_run. unfold copy_layer.
      destruct src as [file|]; [|reflexivity].
      rewrite bind_run. unfold get at 1.
      destruct (disk s !! root) as [d|] eqn:Hd; [|reflexivity].
      destruct (layers_is_dir d); [|reflexivity].
      unfold write_dir. rewrite bind_run. unfold get at 1.
      rewrite Hd, (Hro d eq_refl). reflexivity.
Qed.

(** When the project directory cannot be written and at least one chosen
    file would have to be copied (it is new, or its overwrite is
    confirmed), [_add_layer_files] raises the I/O error of the copy and
    the whole state is as before the call: no record was added and the
    project is not marked dirty. *)
Theorem add_layer_files_copy_fails (s : App) (root : string)
    (is_base : bool) (overwrite : string → bool)
    (paths : list (string * LayerSource)) :
  project_path s = Some root →
  (∀ d, disk s !! root = Some d → read_only d = true) →
  Exists (λ p, layer_exists s root p.1 = false ∨ overwrite p.1 = true) paths →
  run (_add_layer_files paths is_base overwrite) s = (Raise IOError, s).
Proof.
  intros Hp Hro Hex. unfold run, _add_layer_files.
  destruct paths as [|p paths]; [by apply Exists_nil in Hex|].
  rewrite bind_run,
    (add_layer_loop_fails s root is_base overwrite (p :: paths) Hp Hro Hex).
  reflexivity.
Qed.

Lemma add_layer_files_copy_fails_witness :
  run (_add_layer_files
         [("arm.png", Outside OtherFile); ("new.png", Outside (ImageFile 2 2))]
         true (λ _, false)) Demo2.locked_app
  = (Raise IOError, Demo2.locked_app).
Proof.
  apply (add_layer_files_copy_fails Demo2.locked_app "/locked").
  - reflexivity.
  - intros d Hd. vm_compute in Hd. injection Hd as <-. reflexivity.
  - apply Exists_cons_tl, Exists_cons_hd. left. reflexivity.
Defined.

(** ** The metadata editor *)



(** ** Opening another project with unsaved changes *)




(** ** The preview combo boxes *)

#[local] Instance str_le_total : Total str_le.
Proof. intros a b. apply String.leb_total. Qed.

Lemma elem_of_sorted_filter (layers : gmap string LayerRecord)
    (P : string * LayerRecord → Prop) `{!∀ x, Decision (P x)} (name : string) :
  name ∈ sorted (filter P (map_to_list layers)).*1 ↔
  ∃ data, layers !! name = Some data ∧ P (name, data).
Proof.
  rewrite elem_of_sorted, list_elem_of_fmap. split.
  - intros ([k v] & -> & Hin). apply list_elem_of_filter in Hin as [HP Hin].
    apply elem_of_map_to_list in Hin. eauto.
  - intros (data & Hl & HP). exists (name, data). split; [reflexivity|].
    apply list_elem_of_filter. split; [exact HP|].
    apply elem_of_map_to_list, Hl.
Qed.

Lemma NoDup_sorted_filter (layers : gmap string LayerRecord)
    (P : string * LayerRecord → Prop) `{!∀ x, Decision (P x)} :
  NoDup (sorted (filter P (map_to_list layers)).*1).
Proof.
  unfold sorted. rewrite merge_sort_Permutation.
  eapply sublist_NoDup; [apply (NoDup_fst_map_to_list layers)|].
  apply fmap_sublist, sublist_filter.
Qed.

(** Every layer is offered in exactly one of the two preview combo boxes.
    After the leading "<None>", the base box lists the layers of type
    "base_layer" and the top box all the others; each box is in sorted
    order and names no layer twice, so a layer of the manifest is in the
    base box exactly when it is not in the top box. *)
Theorem combo_boxes_partition (s : App) :
  let layers := default ∅ (manifest s) in
  head (base_items s) = Some "<None>" ∧
  head (top_items s) = Some "<None>" ∧
  (∀ name, name ∈ tail (base_items s) ↔
           ∃ data, layers !! name = Some data ∧ is_base_layer data = true) ∧
  (∀ name, name ∈ tail (top_items s) ↔
           ∃ data, layers !! name = Some data ∧ is_base_layer data = false) ∧
  (∀ name, is_Some (layers !! name) →
           (name ∈ tail (base_items s) ↔ name ∉ tail (top_items s))) ∧
  Sorted str_le (tail (base_items s)) ∧
  Sorted str_le (tail (top_items s)) ∧
  NoDup (tail (base_items s)) ∧
  NoDup (tail (top_items s)).
Proof.
  intros layers. unfold base_items, top_items. cbn [head tail]. fold layers.
  assert (Hbase : ∀ name,
    name ∈ sorted (filter (λ '(n, d), is_base_layer d = true)
                          (map_to_list layers)).*1 ↔
    ∃ data, layers !! name = Some data ∧ is_base_layer data = true).
  { intros name. apply elem_of_sorted_filter. }
  assert (Htop : ∀ name,
    name ∈ sorted (filter (λ '(n, d), is_base_layer d = false)
                          (map_to_list layers)).*1 ↔
    ∃ data, layers !! name = Some data ∧ is_base_layer data = false).
  { intros name. apply elem_of_sorted_filter. }
  split_and!; try reflexivity; try assumption.
  - intros name [data Hl]. rewrite Hbase, Htop. split.
    + intros (d1 & H1 & Hb) (d2 & H2 & Ht). congruence.
    + intros Hnot. exists data. split; [exact Hl|].
      destruct (is_base_layer data) eqn:Hb; [reflexivity|].
      exfalso. apply Hnot. eauto.
  - apply Sorted_merge_sort. apply _.
  - apply Sorted_merge_sort. apply _.
  - apply NoDup_sorted_filter.
  - apply NoDup_sorted_filter.
Qed.
